(** * codeintel-implicit-conversion-checker: a model of [main.py]

    The program is a command-line dispatcher: it checks that the target
    path exists, runs up to four external analysers one after another,
    collects what each printed, prints the collection and optionally
    writes it to a report file.

    The embedding is shallow.  Python strings are [string], the result
    dictionary is an association list in insertion order, and every
    effect (logging, printing, launching a subprocess, writing the report)
    is recorded as an event in a trace.  Exceptions are a sum type, with
    [try_except] for the handlers of the source.  Everything outside the
    program text (file system, process table, the runtime's rendering of
    an exception) is a field of the record [World].

    Layout: the library functions the program calls ([shlex.split],
    [os.path.dirname]), the effects, the program itself, the vocabulary
    of the statements, and then the lemmas and the theorems C1 to C10. *)

From Stdlib Require Import String Ascii List ZArith Lia Bool DecimalString.
Import ListNotations.
Open Scope string_scope.

(** ** Strings *)

Module Str.

Fixpoint forallb (P : ascii -> bool) (s : string) : bool :=
  match s with
  | EmptyString => true
  | String c r => P c && forallb P r
  end.

Fixpoint existsb (P : ascii -> bool) (s : string) : bool :=
  match s with
  | EmptyString => false
  | String c r => P c || existsb P r
  end.

Definition is_empty (s : string) : bool :=
  match s with EmptyString => true | _ => false end.

(** [''.join(l)]. *)
Definition join (l : list string) : string := fold_right append "" l.

(** [s + c] for a one-character [c]. *)
Definition snoc (s : string) (c : ascii) : string := s ++ String c "".

(** [str.upper] on the ASCII letters; the keys the program upper-cases
    are ASCII literals. *)
Definition upper_ascii (c : ascii) : ascii :=
  let n := nat_of_ascii c in
  if (97 <=? n)%nat && (n <=? 122)%nat then ascii_of_nat (n - 32) else c.

Fixpoint upper (s : string) : string :=
  match s with
  | EmptyString => EmptyString
  | String c r => String (upper_ascii c) (upper r)
  end.

End Str.

(** ** Exceptions and results *)

(** The [OSError] family raised when a process cannot be started or a
    file cannot be opened or written; each carries its message. *)
Inductive os_error :=
| FileNotFoundError (msg : string)
| PermissionError (msg : string)
| NotADirectoryError (msg : string)
| IsADirectoryError (msg : string)
| OtherOSError (msg : string).

(** The exceptions a run can meet.  [CalledProcessError] is raised by
    [subprocess.run(..., check=True)] on a non-zero exit status,
    [ValueError] by [shlex.split] on an unfinished quote or escape,
    [UnicodeDecodeError] by [subprocess.run(..., text=True)] when what
    the process wrote cannot be decoded. *)
Inductive exn :=
| CalledProcessError (returncode : Z) (cmd : list string) (output stderr : string)
| ValueError (msg : string)
| OSError (e : os_error)
| UnicodeDecodeError (msg : string).

Inductive result (A : Type) :=
| Ok (a : A)
| Raise (e : exn).
Arguments Ok {A} a.
Arguments Raise {A} e.

(** ** [shlex.split]

    [shlex.split(s)] builds a lexer with [posix=True],
    [whitespace_split=True], no comment characters and no punctuation
    characters, and collects its tokens.  [read_token] below is the loop of
    [shlex.read_token] under those settings.  The lexer keeps [state]
    between tokens, and [token], [quoted] and [escapedstate] start afresh
    for each one, so a [break] that emits a token continues on the rest of
    the input with fresh locals. *)

Module Shlex.

(** [self.state]: [' '], ['a'], an opening quote, or the escape character. *)
Inductive lstate :=
| St_ws
| St_word
| St_quote (q : ascii)
| St_escape.

Definition whitespace (c : ascii) : bool :=
  (c =? " ")%char || (c =? "009")%char || (c =? "013")%char || (c =? "010")%char.

Definition quotes (c : ascii) : bool :=
  (c =? "'")%char || (c =? "034")%char.

Definition escape (c : ascii) : bool := (c =? "\")%char.

Definition escapedquotes (c : ascii) : bool := (c =? "034")%char.

(** [state in self.quotes], for the saved [escapedstate]. *)
Definition in_quotes (st : lstate) : bool :=
  match st with St_quote q => quotes q | _ => false end.

Definition state_is (st : lstate) (c : ascii) : bool :=
  match st with St_quote q => (q =? c)%char | _ => false end.

(** [if self.token or (self.posix and quoted)]. *)
Definition emits (token : string) (quoted : bool) : bool :=
  negb (Str.is_empty token) || quoted.

Definition push (token : string) (r : result (list string)) : result (list string) :=
  match r with
  | Ok ts => Ok (token :: ts)
  | Raise e => Raise e
  end.

Fixpoint read_token (state escapedstate : lstate) (quoted : bool)
    (token : string) (input : string) : result (list string) :=
  match input with
  | EmptyString =>
      match state with
      | St_ws | St_word =>
          (* end of file: the pending token is returned unless it is
             empty and unquoted, and the next read returns EOF *)
          if emits token quoted then Ok [token] else Ok []
      | St_quote _ => Raise (ValueError "No closing quotation")
      | St_escape => Raise (ValueError "No escaped character")
      end
  | String nextchar rest =>
      match state with
      | St_ws =>
          if whitespace nextchar then
            if emits token quoted
            then push token (read_token St_ws St_ws false "" rest)
            else read_token St_ws escapedstate quoted token rest
          else if escape nextchar then
            read_token St_escape St_word quoted token rest
          else if quotes nextchar then
            read_token (St_quote nextchar) escapedstate quoted token rest
          else
            read_token St_word escapedstate quoted (String nextchar "") rest
      | St_quote q =>
          if (nextchar =? q)%char then
            read_token St_word escapedstate true token rest
          else if escape nextchar && escapedquotes q then
            read_token St_escape (St_quote q) true token rest
          else
            read_token (St_quote q) escapedstate true (Str.snoc token nextchar) rest
      | St_escape =>
          let token :=
            if in_quotes escapedstate && negb (escape nextchar)
               && negb (state_is escapedstate nextchar)
            then Str.snoc token "\" else token in
          read_token escapedstate escapedstate quoted (Str.snoc token nextchar) rest
      | St_word =>
          if whitespace nextchar then
            if emits token quoted
            then push token (read_token St_ws St_ws false "" rest)
            else read_token St_ws escapedstate quoted token rest
          else if quotes nextchar then
            read_token (St_quote nextchar) escapedstate quoted token rest
          else if escape nextchar then
            read_token St_escape St_word quoted token rest
          else
            read_token St_word escapedstate quoted (Str.snoc token nextchar) rest
      end
  end.

Definition split (s : string) : result (list string) :=
  read_token St_ws St_ws false "" s.

End Shlex.

(** ** [os.path.dirname] (posixpath) *)

Module Path.

Definition is_sep (c : ascii) : bool := (c =? "/")%char.

Fixpoint drop_while (P : ascii -> bool) (l : list ascii) : list ascii :=
  match l with
  | [] => []
  | c :: r => if P c then drop_while P r else l
  end.

(** [s.rstrip('/')]. *)
Definition rstrip_sep (l : list ascii) : list ascii :=
  rev (drop_while is_sep (rev l)).

(** [p[:p.rfind('/') + 1]]: everything up to and including the last
    separator, nothing when there is none. *)
Definition head_of (l : list ascii) : list ascii :=
  rev (drop_while (fun c => negb (is_sep c)) (rev l)).

Definition dirname (p : string) : string :=
  let head := head_of (list_ascii_of_string p) in
  string_of_list_ascii
    (match head with
     | [] => head
     | _ :: _ => if negb (List.forallb is_sep head) then rstrip_sep head else head
     end).

End Path.

(** ** Effects *)

Inductive level := INFO | WARNING | ERROR.

(** What a run does to the outside, in order. *)
Inductive event :=
| Log (lvl : level) (msg : string)
  (** a record handed to [logging] *)
| Print (s : string)
  (** [print(s)]: [s] and a newline on standard output *)
| Spawn (args : list string) (cwd : option string)
  (** [subprocess.run] asked the system to start a process *)
| Open (path : string)
  (** [open(path, "w")] succeeded and the file is now empty *)
| Write (path : string) (data : string).
  (** [data] reached the file at [path] *)

(** A computation returns a value or raises, and leaves a trace. *)
Definition M (A : Type) : Type := (result A * list event)%type.

Definition ret {A} (a : A) : M A := (Ok a, []).

Definition raise {A} (e : exn) : M A := (Raise e, []).

Definition emit (ev : event) : M unit := (Ok tt, [ev]).

Definition bind {A B} (m : M A) (k : A -> M B) : M B :=
  match m with
  | (Ok a, t1) => let (r, t2) := k a in (r, (t1 ++ t2)%list)
  | (Raise e, t1) => (Raise e, t1)
  end.

(** [try: m  except <class> as e: h e]; the handler answers [None] for an
    exception outside its class, which then keeps propagating. *)
Definition try_except {A} (m : M A) (h : exn -> option (M A)) : M A :=
  match m with
  | (Ok a, t1) => (Ok a, t1)
  | (Raise e, t1) =>
      match h e with
      | Some k => let (r, t2) := k in (r, (t1 ++ t2)%list)
      | None => (Raise e, t1)
      end
  end.

Notation "x <- c1 ;; c2" := (bind c1 (fun x => c2))
  (at level 61, c1 at next level, right associativity).
Notation "c1 ;; c2" := (bind c1 (fun _ => c2))
  (at level 61, right associativity).

Fixpoint for_each {A} (l : list A) (body : A -> M unit) : M unit :=
  match l with
  | [] => ret tt
  | x :: r => body x ;; for_each r body
  end.

(** ** The world outside the program *)

(** How an attempt to run a command ends.  The process could not be
    started; or it ran to its end and [subprocess.run] captured what it
    wrote to its two output streams as text (decoded, newlines
    translated): [stdout] and [stderr] are these captured texts; or it
    ran to its end and what it wrote cannot be decoded as text. *)
Inductive spawn_outcome :=
| Exited (returncode : Z) (stdout stderr : string)
| NotStarted (e : os_error)
| Undecodable (msg : string).

Record World := {
  os_path_exists : string -> bool;
  os_spawn : list string -> option string -> spawn_outcome;
  fs_open : string -> option os_error;
  fs_write : string -> string -> option (os_error * nat);
  (** [CalledProcessError.__str__], which reads [returncode] and [cmd] only *)
  str_CalledProcessError : Z -> list string -> string
}.

Definition os_error_str (e : os_error) : string :=
  match e with
  | FileNotFoundError m | PermissionError m | NotADirectoryError m
  | IsADirectoryError m | OtherOSError m => m
  end.

(** [f"{e}"]. *)
Definition str_exn (w : World) (e : exn) : string :=
  match e with
  | CalledProcessError rc cmd _ _ => str_CalledProcessError w rc cmd
  | ValueError m => m
  | OSError e => os_error_str e
  | UnicodeDecodeError m => m
  end.

Definition logging_info (msg : string) : M unit := emit (Log INFO msg).
Definition logging_warning (msg : string) : M unit := emit (Log WARNING msg).
Definition logging_error (msg : string) : M unit := emit (Log ERROR msg).
(** [print(s)].  Standard output is taken to accept every text: a
    console that cannot encode the text, or a closed pipe, is outside
    the model. *)
Definition print (s : string) : M unit := emit (Print s).

Record CompletedProcess := {
  cp_args : list string;
  cp_returncode : Z;
  stdout : string;
  stderr : string
}.

(** [subprocess.run(args, capture_output=True, text=True, cwd=cwd, check=check)]. *)
Definition subprocess_run (w : World) (args : list string) (cwd : option string)
    (check : bool) : M CompletedProcess :=
  emit (Spawn args cwd) ;;
  match os_spawn w args cwd with
  | Exited rc out err =>
      if check && negb (rc =? 0)%Z
      then raise (CalledProcessError rc args out err)
      else ret {| cp_args := args; cp_returncode := rc; stdout := out; stderr := err |}
  | NotStarted e => raise (OSError e)
  | Undecodable m => raise (UnicodeDecodeError m)
  end.

(** [shlex.split] inside the monad. *)
Definition shlex_split (s : string) : M (list string) := (Shlex.split s, []).

(** [open(path, "w")]. *)
Definition open_w (w : World) (path : string) : M unit :=
  match fs_open w path with
  | None => emit (Open path)
  | Some e => raise (OSError e)
  end.

(** [f.write(data)] on the file opened at [path].  The stream is
    buffered: a text handed to [f.write] reaches the file at that call,
    at a later flush, or when the [with] block closes the file, and an
    error at any of these points is raised inside the [try] block.
    [fs_write] tells what becomes of the text whenever that is: it
    reaches the file whole, or the file system refuses it after [kept]
    of its characters; the event [Write] records what reached the
    file. *)
Definition f_write (w : World) (path data : string) : M unit :=
  match fs_write w path data with
  | None => emit (Write path data)
  | Some (e, kept) => emit (Write path (substring 0 kept data)) ;; raise (OSError e)
  end.

(** ** The result dictionary: insertion-ordered, one value per key *)

Definition dict := list (string * string).

(** [d[k] = v]: an existing key keeps its place, a new one goes last. *)
Fixpoint dict_set (d : dict) (k v : string) : dict :=
  match d with
  | [] => [(k, v)]
  | (k', v') :: r => if (k' =? k) then (k', v) :: r else (k', v') :: dict_set r k v
  end.

(** [d.get(k)]. *)
Fixpoint dict_get (d : dict) (k : string) : option string :=
  match d with
  | [] => None
  | (k', v') :: r => if (k' =? k) then Some v' else dict_get r k
  end.

Definition keys (d : dict) : list string := map fst d.

(** ** The program *)

(** [except subprocess.CalledProcessError as e:] *)
Definition only_CalledProcessError {A} (h : exn -> M A) (e : exn) : option (M A) :=
  match e with
  | CalledProcessError _ _ _ _ => Some (h e)
  | _ => None
  end.

(** [except Exception as e:] *)
Definition any_Exception {A} (h : exn -> M A) (e : exn) : option (M A) := Some (h e).

(** [analyze_python] *)
Definition analyze_python (w : World) (filepath : string) (report_file : option string)
    (use_bandit use_flake8 use_pylint use_pyre : bool) : M dict :=
  let results : dict := [] in
  results <-
    (if use_bandit then
       try_except
         (let command := "bandit -r " ++ filepath ++ " -q -f json" in
          logging_info ("Running Bandit: " ++ command) ;;
          args <- shlex_split command ;;
          process <- subprocess_run w args None true ;;
          ret (dict_set results "bandit" (stdout process)))
         (only_CalledProcessError (fun e =>
            logging_error ("Bandit analysis failed: " ++ str_exn w e) ;;
            ret (dict_set results "bandit" ("Error: " ++ str_exn w e))))
     else ret results) ;;
  results <-
    (if use_flake8 then
       try_except
         (let command := "flake8 " ++ filepath in
          logging_info ("Running Flake8: " ++ command) ;;
          args <- shlex_split command ;;
          process <- subprocess_run w args None true ;;
          ret (dict_set results "flake8" (stdout process)))
         (only_CalledProcessError (fun e =>
            logging_error ("Flake8 analysis failed: " ++ str_exn w e) ;;
            ret (dict_set results "flake8" ("Error: " ++ str_exn w e))))
     else ret results) ;;
  results <-
    (if use_pylint then
       try_except
         (let command := "pylint " ++ filepath ++ " --output-format=json" in
          logging_info ("Running Pylint: " ++ command) ;;
          args <- shlex_split command ;;
          process <- subprocess_run w args None true ;;
          ret (dict_set results "pylint" (stdout process)))
         (only_CalledProcessError (fun e =>
            logging_error ("Pylint analysis failed: " ++ str_exn w e) ;;
            ret (dict_set results "pylint" ("Error: " ++ str_exn w e))))
     else ret results) ;;
  results <-
    (if use_pyre then
       try_except
         (let command := "pyre check" in
          logging_info ("Running Pyre: " ++ command) ;;
          args <- shlex_split command ;;
          process <- subprocess_run w args (Some (Path.dirname filepath)) true ;;
          ret (dict_set results "pyre" (stdout process)))
         (only_CalledProcessError (fun e =>
            logging_error ("Pyre analysis failed: " ++ str_exn w e) ;;
            ret (dict_set results "pyre" ("Error: " ++ str_exn w e))))
     else ret results) ;;
  ret results.

(** [analyze_javascript] *)
Definition analyze_javascript (filepath : string) (report_file : option string) : M dict :=
  logging_warning "JavaScript analysis is not yet implemented." ;;
  ret [("javascript_analysis", "Not implemented")].

(** [analyze_php] *)
Definition analyze_php (filepath : string) (report_file : option string) : M dict :=
  logging_warning "PHP analysis is not yet implemented." ;;
  ret [("php_analysis", "Not implemented")].

(** [save_report].  The [with] block closes the file on its way out,
    also when the body raised; what a failing flush or close does to
    the file and to the handler is part of [f_write]. *)
Definition save_report (w : World) (report_file : string) (results : dict) : M unit :=
  try_except
    (open_w w report_file ;;
     f_write w report_file ("Analysis Report:" ++ String "010" "") ;;
     for_each results (fun '(tool, result) =>
       f_write w report_file
         (String "010" "--- " ++ Str.upper tool ++ " ---" ++ String "010" "") ;;
       f_write w report_file result))
    (any_Exception (fun e =>
       logging_error ("Failed to save report: " ++ str_exn w e))).

(** The parsed command line, as [parser.parse_args()] returns it.
    [parse_args] itself is not modelled; it ends the program with status
    2 for a [--language] outside its three choices, so [language] is
    one of them and the last branch of [main] is never taken. *)
Record Args := {
  filepath : string;
  language : string;
  report_file : option string;
  use_bandit : bool;
  use_flake8 : bool;
  use_pylint : bool;
  use_pyre : bool
}.

(** [if report_file:] holds for a string that is present and not empty. *)
Definition truthy (report_file : option string) : option string :=
  match report_file with
  | Some p => if Str.is_empty p then None else Some p
  | None => None
  end.

(** The tail of [main] once [results] is bound: print the results, then
    save the report when one was asked for. *)
Definition main_output (w : World) (report_file : option string) (results : dict) : M unit :=
  print (String "010" "Analysis Results:") ;;
  for_each results (fun '(tool, result) =>
    print (String "010" "--- " ++ Str.upper tool ++ " ---" ++ String "010" "") ;;
    print result) ;;
  match truthy report_file with
  | Some path =>
      save_report w path results ;;
      print (String "010" "Report saved to: " ++ path)
  | None => ret tt
  end.

(** [main], from the parsed arguments on (line 100 of the source). *)
Definition main (w : World) (args : Args) : M unit :=
  let filepath := filepath args in
  let language := language args in
  let report_file := report_file args in
  if negb (os_path_exists w filepath) then
    logging_error ("File or directory not found: " ++ filepath) ;;
    print ("Error: File or directory not found: " ++ filepath) ;;
    ret tt
  else if language =? "python" then
    results <- analyze_python w filepath report_file (use_bandit args)
                 (use_flake8 args) (use_pylint args) (use_pyre args) ;;
    main_output w report_file results
  else if language =? "javascript" then
    results <- analyze_javascript filepath report_file ;;
    main_output w report_file results
  else if language =? "php" then
    results <- analyze_php filepath report_file ;;
    main_output w report_file results
  else
    logging_error ("Unsupported language: " ++ language) ;;
    print ("Error: Unsupported language: " ++ language) ;;
    ret tt.

(** ** The four tool blocks, seen uniformly

    [analyze_python] repeats one block four times.  The definitions below
    name what varies (the key, the label in the log, the command line, the
    working directory) so that statements can speak of "a tool". *)

Inductive tool := Bandit | Flake8 | Pylint | Pyre.

Definition tools : list tool := [Bandit; Flake8; Pylint; Pyre].

Definition tool_name (t : tool) : string :=
  match t with
  | Bandit => "bandit" | Flake8 => "flake8" | Pylint => "pylint" | Pyre => "pyre"
  end.

Definition tool_label (t : tool) : string :=
  match t with
  | Bandit => "Bandit" | Flake8 => "Flake8" | Pylint => "Pylint" | Pyre => "Pyre"
  end.

Definition tool_command (t : tool) (filepath : string) : string :=
  match t with
  | Bandit => "bandit -r " ++ filepath ++ " -q -f json"
  | Flake8 => "flake8 " ++ filepath
  | Pylint => "pylint " ++ filepath ++ " --output-format=json"
  | Pyre => "pyre check"
  end.

Definition tool_cwd (t : tool) (filepath : string) : option string :=
  match t with
  | Pyre => Some (Path.dirname filepath)
  | _ => None
  end.

(** The flags, as a predicate on tools. *)
Definition enabled (use_bandit use_flake8 use_pylint use_pyre : bool) (t : tool) : bool :=
  match t with
  | Bandit => use_bandit | Flake8 => use_flake8
  | Pylint => use_pylint | Pyre => use_pyre
  end.

(** The argument vector of a tool: the split command line. *)
Definition tool_args (t : tool) (filepath : string) : result (list string) :=
  Shlex.split (tool_command t filepath).

(** One block of [analyze_python]. *)
Definition run_tool (w : World) (filepath : string) (t : tool) (results : dict) : M dict :=
  try_except
    (let command := tool_command t filepath in
     logging_info ("Running " ++ tool_label t ++ ": " ++ command) ;;
     args <- shlex_split command ;;
     process <- subprocess_run w args (tool_cwd t filepath) true ;;
     ret (dict_set results (tool_name t) (stdout process)))
    (only_CalledProcessError (fun e =>
       logging_error (tool_label t ++ " analysis failed: " ++ str_exn w e) ;;
       ret (dict_set results (tool_name t) ("Error: " ++ str_exn w e)))).

(** One block behind its flag. *)
Definition tool_step (w : World) (filepath : string) (on : bool) (t : tool)
    (results : dict) : M dict :=
  if on then run_tool w filepath t results else ret results.

(** The text stored for a tool whose process ran to its end. *)
Definition entry_text (w : World) (args : list string) (rc : Z) (out : string) : string :=
  if (rc =? 0)%Z then out else "Error: " ++ str_CalledProcessError w rc args.

(** What one block does, by cases on the command line and on the world. *)
Definition tool_effect (w : World) (filepath : string) (t : tool) (results : dict) : M dict :=
  let running := Log INFO ("Running " ++ tool_label t ++ ": " ++ tool_command t filepath) in
  match tool_args t filepath with
  | Raise e => (Raise e, [running])
  | Ok args =>
      let spawn := Spawn args (tool_cwd t filepath) in
      match os_spawn w args (tool_cwd t filepath) with
      | NotStarted e => (Raise (OSError e), [running; spawn])
      | Undecodable m => (Raise (UnicodeDecodeError m), [running; spawn])
      | Exited rc out err =>
          (Ok (dict_set results (tool_name t) (entry_text w args rc out)),
           if (rc =? 0)%Z then [running; spawn]
           else [running; spawn;
                 Log ERROR (tool_label t ++ " analysis failed: "
                            ++ str_CalledProcessError w rc args)])
      end
  end.

(** The world lets tool [t] run to an exit status on this path. *)
Definition completes (w : World) (filepath : string) (t : tool) : bool :=
  match tool_args t filepath with
  | Ok args =>
      match os_spawn w args (tool_cwd t filepath) with
      | Exited _ _ _ => true
      | NotStarted _ | Undecodable _ => false
      end
  | Raise _ => false
  end.

(** The text a tool's entry holds, when the tool ran to an exit status. *)
Definition tool_value (w : World) (filepath : string) (t : tool) : option string :=
  match tool_args t filepath with
  | Ok args =>
      match os_spawn w args (tool_cwd t filepath) with
      | Exited rc out _ => Some (entry_text w args rc out)
      | NotStarted _ | Undecodable _ => None
      end
  | Raise _ => None
  end.

(** The same as a list of at most one key-value pair. *)
Definition tool_entry (w : World) (filepath : string) (t : tool) : list (string * string) :=
  match tool_value w filepath t with
  | Some v => [(tool_name t, v)]
  | None => []
  end.

(** The [Spawn] events of a trace. *)
Definition spawns (tr : list event) : list (list string * option string) :=
  flat_map (fun ev => match ev with Spawn a c => [(a, c)] | _ => [] end) tr.

(** The call a tool makes when its command line splits. *)
Definition tool_call (filepath : string) (t : tool) : list (list string * option string) :=
  match tool_args t filepath with
  | Ok args => [(args, tool_cwd t filepath)]
  | Raise _ => []
  end.

(** What the console shows: each [print] ends its text with a newline. *)
Definition console (tr : list event) : string :=
  Str.join (flat_map (fun ev =>
    match ev with Print s => [s ++ String "010" ""] | _ => [] end) tr).

(** The arguments of the [print] calls, in order. *)
Definition prints (tr : list event) : list string :=
  flat_map (fun ev => match ev with Print s => [s] | _ => [] end) tr.

(** The content of the file at [path] after the trace, if the trace
    opened it: what was written since it was last opened for writing. *)
Fixpoint file_content (path : string) (tr : list event) (cur : option string) : option string :=
  match tr with
  | [] => cur
  | Open p :: r => file_content path r (if p =? path then Some "" else cur)
  | Write p d :: r =>
      file_content path r
        (if p =? path then match cur with Some c => Some (c ++ d) | None => None end
         else cur)
  | _ :: r => file_content path r cur
  end.

(** ** Vocabulary of the statements *)

(** The entries the enabled tools contribute, in the order of the blocks. *)
Definition planned_entries (w : World) (filepath : string) (b f l p : bool) : dict :=
  flat_map (fun t => if enabled b f l p t then tool_entry w filepath t else []) tools.

(** The calls the enabled tools make, in the order of the blocks. *)
Definition planned_calls (filepath : string) (b f l p : bool)
  : list (list string * option string) :=
  flat_map (fun t => if enabled b f l p t then tool_call filepath t else []) tools.

(** [d[k] = v] for each pair of [kvs], from left to right. *)
Definition set_all (d : dict) (kvs : list (string * string)) : dict :=
  fold_left (fun d kv => dict_set d (fst kv) (snd kv)) kvs d.

(** How often a key occurs in a list of keys. *)
Definition occurrences (k : string) (ks : list string) : nat :=
  length (filter (String.eqb k) ks).

(** Two worlds give tool [u] the same outcome on this path. *)
Definition agree_on (w w' : World) (filepath : string) (u : tool) : Prop :=
  forall args, tool_args u filepath = Ok args ->
    os_spawn w' args (tool_cwd u filepath) = os_spawn w args (tool_cwd u filepath).

(** Two worlds render a failed command the same way. *)
Definition same_str (w w' : World) : Prop :=
  forall rc cmd, str_CalledProcessError w' rc cmd = str_CalledProcessError w rc cmd.

(** Concrete worlds, for the examples and the counterexamples. *)
Module Demo.

(** The usual rendering of a failed command, for arguments that need no
    escaping and a status that is not a signal. *)
Definition py_str_CalledProcessError (rc : Z) (cmd : list string) : string :=
  "Command '[" ++ String.concat ", " (map (fun a => "'" ++ a ++ "'") cmd)
  ++ "]' returned non-zero exit status "
  ++ NilZero.string_of_int (Z.to_int rc) ++ ".".

(** The newline. *)
Definition nl : string := String "010" "".

(** A bandit report without findings: an object with an empty list under
    the key [results] (34 is the code of the double quote). *)
Definition bandit_json : string :=
  "{" ++ String "034" "results" ++ String "034" ": []}".

(** All four tools are installed; flake8 finds a problem and exits with
    status 1; pyre needs a real directory to start in.  The directory
    [/readonly] cannot be written to. *)
Definition world : World := {|
  os_path_exists := fun p => (p =? "app.py") || (p =? "src/app.py")
                             || (p =? "my dir/app.py") || (p =? "app.py ");
  os_spawn := fun args cwd =>
    match args with
    | "bandit" :: _ => Exited 0 bandit_json "[main] INFO running on Python 3"
    | "flake8" :: _ => Exited 1 ("app.py:1:1: F401 'os' imported but unused" ++ nl) ""
    | "pylint" :: _ => Exited 0 "[]" ""
    | "pyre" :: _ =>
        match cwd with
        | Some "" => NotStarted (FileNotFoundError "[Errno 2] No such file or directory: ''")
        | _ => Exited 0 ("No type errors found" ++ nl) ""
        end
    | _ => NotStarted (FileNotFoundError "[Errno 2] No such file or directory")
    end;
  fs_open := fun p =>
    if p =? "/readonly/out.txt"
    then Some (PermissionError "[Errno 13] Permission denied: '/readonly/out.txt'")
    else None;
  fs_write := fun _ _ => None;
  str_CalledProcessError := py_str_CalledProcessError
|}.

(** The same machine with flake8 passing. *)
Definition world_flake8_passes : World := {|
  os_path_exists := os_path_exists world;
  os_spawn := fun args cwd =>
    match args with
    | "flake8" :: _ => Exited 0 "" ""
    | _ => os_spawn world args cwd
    end;
  fs_open := fs_open world;
  fs_write := fs_write world;
  str_CalledProcessError := py_str_CalledProcessError
|}.

(** The same machine without flake8 installed. *)
Definition world_without_flake8 : World := {|
  os_path_exists := os_path_exists world;
  os_spawn := fun args cwd =>
    match args with
    | "flake8" :: _ =>
        NotStarted (FileNotFoundError "[Errno 2] No such file or directory: 'flake8'")
    | _ => os_spawn world args cwd
    end;
  fs_open := fs_open world;
  fs_write := fs_write world;
  str_CalledProcessError := py_str_CalledProcessError
|}.

(** The same machine with every process also complaining on standard
    error. *)
Definition world_noisy : World := {|
  os_path_exists := os_path_exists world;
  os_spawn := fun args cwd =>
    match os_spawn world args cwd with
    | Exited rc out err => Exited rc out (err ++ "WARNING: something else" ++ nl)
    | NotStarted e => NotStarted e
    | Undecodable m => Undecodable m
    end;
  fs_open := fs_open world;
  fs_write := fs_write world;
  str_CalledProcessError := py_str_CalledProcessError
|}.

(** A parsed command line. *)
Definition args_of (path lang : string) (report : option string) (b f l p : bool) : Args :=
  {| filepath := path; language := lang; report_file := report;
     use_bandit := b; use_flake8 := f; use_pylint := l; use_pyre := p |}.

End Demo.

(** Events that touch neither the console nor the process table. *)
Definition file_or_log (ev : event) : Prop :=
  match ev with Open _ | Write _ _ | Log _ _ => True | _ => False end.

(** Events that touch neither the console nor the file system. *)
Definition log_or_spawn (ev : event) : Prop :=
  match ev with Log _ _ | Spawn _ _ => True | _ => False end.

(** The analysis [main] dispatches to, for a supported language. *)
Definition dispatch (w : World) (args : Args) : M dict :=
  if language args =? "python" then
    analyze_python w (filepath args) (report_file args) (use_bandit args)
      (use_flake8 args) (use_pylint args) (use_pyre args)
  else if language args =? "javascript" then
    analyze_javascript (filepath args) (report_file args)
  else
    analyze_php (filepath args) (report_file args).

(** The three values [argparse] lets through for [--language]. *)
Definition supported (lang : string) : bool :=
  (lang =? "python") || (lang =? "javascript") || (lang =? "php").

(** The [print] calls of the loop over the results. *)
Definition result_prints (results : dict) : list event :=
  flat_map (fun '(tool, result) =>
    [Print (String "010" "--- " ++ Str.upper tool ++ " ---" ++ String "010" "");
     Print result]) results.

(** Events that leave every file as it is. *)
Definition not_file (ev : event) : Prop :=
  match ev with Open _ | Write _ _ => False | _ => True end.

(** The header line of a tool's block, with the newline before and after. *)
Definition header (tool : string) : string :=
  String "010" "--- " ++ Str.upper tool ++ " ---" ++ String "010" "".

(** What [save_report] leaves in the file when every write succeeds. *)
Definition report_text (results : dict) : string :=
  ("Analysis Report:" ++ String "010" "")
  ++ Str.join (map (fun '(tool, result) => header tool ++ result) results).

(** What a run with a report path prints. *)
Definition console_text (results : dict) (path : string) : string :=
  (String "010" "Analysis Results:" ++ String "010" "")
  ++ Str.join (map (fun '(tool, result) =>
       header tool ++ String "010" "" ++ result ++ String "010" "") results)
  ++ String "010" "Report saved to: " ++ path ++ String "010" "".

(** The [write] calls of the loop over the results, when all succeed. *)
Definition result_writes (path : string) (results : dict) : list event :=
  flat_map (fun '(tool, result) => [Write path (header tool); Write path result]) results.

(** Two outcomes that differ at most in what was written to standard
    error. *)
Definition stderr_blind (o o' : spawn_outcome) : Prop :=
  match o, o' with
  | Exited rc out _, Exited rc' out' _ => rc = rc' /\ out = out'
  | NotStarted e, NotStarted e' => e = e'
  | Undecodable m, Undecodable m' => m = m'
  | _, _ => False
  end.

(** Two worlds that differ at most in what processes write to standard
    error. *)
Record same_but_stderr (w w' : World) : Prop := {
  sb_exists : forall p, os_path_exists w' p = os_path_exists w p;
  sb_spawn : forall a c, stderr_blind (os_spawn w a c) (os_spawn w' a c);
  sb_open : forall p, fs_open w' p = fs_open w p;
  sb_write : forall p d, fs_write w' p d = fs_write w p d;
  sb_str : forall rc cmd, str_CalledProcessError w' rc cmd = str_CalledProcessError w rc cmd
}.

(** A character the lexer treats as an ordinary one or as a separator. *)
Definition plain (c : ascii) : bool :=
  negb (Shlex.quotes c) && negb (Shlex.escape c).

(** Splitting at runs of white space. *)
Fixpoint words_from (tok : string) (s : string) : list string :=
  match s with
  | EmptyString => if Str.is_empty tok then [] else [tok]
  | String c r =>
      if Shlex.whitespace c then
        if Str.is_empty tok then words_from "" r else tok :: words_from "" r
      else words_from (Str.snoc tok c) r
  end.

(** The white-space-separated words of [s]. *)
Definition words (s : string) : list string := words_from "" s.

(** A path the three command lines carry as one word: not empty, and
    without white space, quotes or backslashes. *)
Definition plain_word (s : string) : bool :=
  negb (Str.is_empty s)
  && Str.forallb (fun c => plain c && negb (Shlex.whitespace c)) s.

(** [s] has a character that is not white space. *)
Definition has_solid (s : string) : bool :=
  Str.existsb (fun c => negb (Shlex.whitespace c)) s.

(** [s] has no white space. *)
Definition solid (s : string) : Prop := Str.existsb Shlex.whitespace s = false.

(** The exception a tool's block lets through, if it lets one through:
    the one of [shlex.split], the one of a process that did not start,
    or the one of output that cannot be decoded. *)
Definition tool_exn (w : World) (filepath : string) (t : tool) : option exn :=
  match tool_args t filepath with
  | Raise e => Some e
  | Ok args =>
      match os_spawn w args (tool_cwd t filepath) with
      | NotStarted e => Some (OSError e)
      | Undecodable m => Some (UnicodeDecodeError m)
      | Exited _ _ _ => None
      end
  end.

(** The place of a tool's block in [analyze_python]. *)
Definition tool_index (t : tool) : nat :=
  match t with Bandit => 0 | Flake8 => 1 | Pylint => 2 | Pyre => 3 end.

(** The log records of a trace, in order. *)
Definition logs (tr : list event) : list (level * string) :=
  flat_map (fun ev => match ev with Log lvl m => [(lvl, m)] | _ => [] end) tr.

(** The log records of a tool that ran to an exit status. *)
Definition tool_logs (w : World) (filepath : string) (t : tool) : list (level * string) :=
  match tool_args t filepath with
  | Ok args =>
      match os_spawn w args (tool_cwd t filepath) with
      | Exited rc _ _ =>
          (INFO, "Running " ++ tool_label t ++ ": " ++ tool_command t filepath)
          :: (if (rc =? 0)%Z then []
              else [(ERROR, tool_label t ++ " analysis failed: "
                            ++ str_CalledProcessError w rc args)])
      | NotStarted _ | Undecodable _ => []
      end
  | Raise _ => []
  end.

(** Events that touch no file but the one at [path], and neither the
    console nor the process table. *)
Definition touches_only (path : string) (ev : event) : Prop :=
  match ev with
  | Open p | Write p _ => p = path
  | Log _ _ => True
  | _ => False
  end.

(** Two worlds that differ at most in what the file system does on
    opening and writing. *)
Record same_but_files (w w' : World) : Prop := {
  sf_exists : forall p, os_path_exists w' p = os_path_exists w p;
  sf_spawn : forall a c, os_spawn w' a c = os_spawn w a c;
  sf_str : forall rc cmd, str_CalledProcessError w' rc cmd = str_CalledProcessError w rc cmd
}.

(** [w'] with the file system of [w]. *)
Definition with_files_of (w w' : World) : World := {|
  os_path_exists := os_path_exists w';
  os_spawn := os_spawn w';
  fs_open := fs_open w;
  fs_write := fs_write w;
  str_CalledProcessError := str_CalledProcessError w'
|}.

(** [' '.join(l)]. *)
Fixpoint join_spaces (l : list string) : string :=
  match l with
  | [] => ""
  | [x] => x
  | x :: r => x ++ " " ++ join_spaces r
  end.

(** The texts [save_report] writes, one per [write] call. *)
Definition report_datas (results : dict) : list string :=
  ("Analysis Report:" ++ String "010" "")
  :: flat_map (fun '(tool, result) => [header tool; result]) results.

(** Writing texts one after another until the file system refuses one:
    what reached the file (the texts before the refused one and the kept
    part of that one), and the error that stopped the writing, if any. *)
Fixpoint write_all (w : World) (path : string) (datas : list string)
  : list string * option os_error :=
  match datas with
  | [] => ([], None)
  | d :: r =>
      match fs_write w path d with
      | Some (e, kept) => ([substring 0 kept d], Some e)
      | None => let (ws, o) := write_all w path r in (d :: ws, o)
      end
  end.

(** What can be seen of a computation from outside the file system and
    the log: how it ended, what it printed, the processes it started. *)
Definition observed {A} (m : M A) : result A * list string * list (list string * option string) :=
  (fst m, prints (snd m), spawns (snd m)).

(** The machine of [Demo.world] with a disk that fills up in the middle
    of the first entry's text: four characters of it are kept. *)
Definition world_disk_full : World := {|
  os_path_exists := os_path_exists Demo.world;
  os_spawn := os_spawn Demo.world;
  fs_open := fs_open Demo.world;
  fs_write := fun _ d =>
    if d =? Demo.bandit_json
    then Some (OtherOSError "[Errno 28] No space left on device", 4)
    else None;
  str_CalledProcessError := Demo.py_str_CalledProcessError
|}.

(** The machine of [Demo.world] with a flake8 whose output is not text. *)
Definition world_undecodable : World := {|
  os_path_exists := os_path_exists Demo.world;
  os_spawn := fun args cwd =>
    match args with
    | "flake8" :: _ =>
        Undecodable "'utf-8' codec can't decode byte 0xff in position 0: invalid start byte"
    | _ => os_spawn Demo.world args cwd
    end;
  fs_open := fs_open Demo.world;
  fs_write := fs_write Demo.world;
  str_CalledProcessError := Demo.py_str_CalledProcessError
|}.

(** The single quote. *)
Definition is_single_quote (c : ascii) : bool := (c =? "'")%char.

(** ** Inverting a [bind] that returned *)

Section MonadFacts.
Context {A B : Type}.

Lemma bind_Ok_inv (m : M A) (k : A -> M B) (b : B) (tr : list event) :
  (x <- m ;; k x) = (Ok b, tr) ->
  exists a t1 t2, m = (Ok a, t1) /\ k a = (Ok b, t2) /\ tr = (t1 ++ t2)%list.
Proof.
  destruct m as [[a|e] t1]; simpl; [|discriminate].
  destruct (k a) as [r t2] eqn:Hk. intros H. injection H as -> <-.
  now exists a, t1, t2.
Qed.

End MonadFacts.

(** ** The lexer raises [ValueError] only *)

Lemma push_Raise tok r e : Shlex.push tok r = Raise e -> r = Raise e.
Proof. destruct r; simpl; congruence. Qed.

Lemma read_token_raises input : forall st es q tok e,
  Shlex.read_token st es q tok input = Raise e -> exists m, e = ValueError m.
Proof.
  induction input as [|c rest IH]; intros st es q tok e H.
  - destruct st; simpl in H;
      try (destruct (Shlex.emits tok q); discriminate);
      injection H as <-; eauto.
  - destruct st; simpl in H;
      repeat match type of H with
      | context [if ?b then _ else _] => destruct b
      end;
      try (apply push_Raise in H); eauto.
Qed.

Lemma split_raises s e : Shlex.split s = Raise e -> exists m, e = ValueError m.
Proof. apply read_token_raises. Qed.

(** ** Each block is [tool_effect] *)

Lemma run_tool_effect w filepath t results :
  run_tool w filepath t results = tool_effect w filepath t results.
Proof.
  unfold run_tool, tool_effect, shlex_split, tool_args.
  generalize (tool_label t) (tool_name t) (tool_cwd t filepath) (tool_command t filepath).
  intros lbl name cwd cmd.
  destruct (Shlex.split cmd) as [args|e] eqn:Hs.
  - unfold subprocess_run, entry_text. simpl.
    destruct (os_spawn w args cwd) as [rc out err|e|m]; [|reflexivity|reflexivity].
    destruct (rc =? 0)%Z; reflexivity.
  - destruct (split_raises _ _ Hs) as [m ->]. reflexivity.
Qed.

Lemma analyze_python_steps w filepath report_file b f l p :
  analyze_python w filepath report_file b f l p =
  (r1 <- tool_step w filepath b Bandit [] ;;
   r2 <- tool_step w filepath f Flake8 r1 ;;
   r3 <- tool_step w filepath l Pylint r2 ;;
   r4 <- tool_step w filepath p Pyre r3 ;;
   ret r4).
Proof. reflexivity. Qed.

(** ** What a returning run of [analyze_python] has done *)

#[local] Arguments tool_args : simpl never.
#[local] Arguments Path.dirname : simpl never.

Lemma spawns_app t1 t2 : spawns (t1 ++ t2) = (spawns t1 ++ spawns t2)%list.
Proof. apply flat_map_app. Qed.

Lemma tool_value_shape w filepath t :
  (completes w filepath t = false /\ tool_value w filepath t = None) \/
  (completes w filepath t = true /\ exists v, tool_value w filepath t = Some v).
Proof.
  unfold completes, tool_value.
  destruct (tool_args t filepath) as [args|e]; [|now left].
  destruct (os_spawn w args (tool_cwd t filepath)); [right|left|left]; eauto.
Qed.

Lemma tool_entry_shape w filepath t :
  (completes w filepath t = false /\ tool_entry w filepath t = []) \/
  (completes w filepath t = true /\
   exists v, tool_value w filepath t = Some v /\
             tool_entry w filepath t = [(tool_name t, v)]).
Proof.
  unfold tool_entry.
  destruct (tool_value_shape w filepath t) as [[C ->]|[C [v ->]]]; eauto.
Qed.

Lemma tool_step_Ok w filepath on t r r' tr :
  tool_step w filepath on t r = (Ok r', tr) ->
  r' = set_all r (if on then tool_entry w filepath t else []) /\
  (on = true -> completes w filepath t = true) /\
  spawns tr = (if on then tool_call filepath t else []).
Proof.
  unfold tool_step. destruct on.
  - rewrite run_tool_effect.
    unfold tool_effect, tool_entry, tool_value, completes, tool_call.
    destruct (tool_args t filepath) as [args|e]; [|discriminate].
    destruct (os_spawn w args (tool_cwd t filepath)) as [rc out err|e|m];
      [|discriminate|discriminate].
    intros H. injection H as <- <-.
    repeat split. destruct (rc =? 0)%Z; reflexivity.
  - intros H. injection H as <- <-. repeat split. discriminate.
Qed.

Lemma tool_step_completes w filepath on t r :
  (on = true -> completes w filepath t = true) ->
  exists r' tr, tool_step w filepath on t r = (Ok r', tr).
Proof.
  unfold tool_step. destruct on; [|intros _; unfold ret; eauto].
  intros H. specialize (H eq_refl). rewrite run_tool_effect.
  unfold tool_effect, completes in *.
  destruct (tool_args t filepath) as [args|e]; [|discriminate].
  destruct (os_spawn w args (tool_cwd t filepath)); [eauto|discriminate|discriminate].
Qed.

Lemma analyze_python_Ok w filepath report_file b f l p res tr :
  analyze_python w filepath report_file b f l p = (Ok res, tr) ->
  res = planned_entries w filepath b f l p /\
  (forall t, enabled b f l p t = true -> completes w filepath t = true) /\
  spawns tr = planned_calls filepath b f l p.
Proof.
  rewrite analyze_python_steps. intros H.
  apply bind_Ok_inv in H as (r1 & t1 & u1 & H1 & H & ->).
  apply bind_Ok_inv in H as (r2 & t2 & u2 & H2 & H & ->).
  apply bind_Ok_inv in H as (r3 & t3 & u3 & H3 & H & ->).
  apply bind_Ok_inv in H as (r4 & t4 & u4 & H4 & H & ->).
  injection H as <- <-.
  apply tool_step_Ok in H1 as (-> & C1 & S1).
  apply tool_step_Ok in H2 as (-> & C2 & S2).
  apply tool_step_Ok in H3 as (-> & C3 & S3).
  apply tool_step_Ok in H4 as (-> & C4 & S4).
  split; [|split].
  - unfold planned_entries, tools. cbn [flat_map enabled].
    destruct (tool_entry_shape w filepath Bandit) as [[_ ->]|[_ [v1 [_ ->]]]];
    destruct (tool_entry_shape w filepath Flake8) as [[_ ->]|[_ [v2 [_ ->]]]];
    destruct (tool_entry_shape w filepath Pylint) as [[_ ->]|[_ [v3 [_ ->]]]];
    destruct (tool_entry_shape w filepath Pyre) as [[_ ->]|[_ [v4 [_ ->]]]];
    destruct b, f, l, p; reflexivity.
  - intros [] Ht; simpl in Ht; auto.
  - rewrite !spawns_app, S1, S2, S3, S4. unfold planned_calls, tools. simpl.
    now rewrite !app_nil_r.
Qed.

Lemma analyze_python_returns w filepath report_file b f l p :
  (forall t, enabled b f l p t = true -> completes w filepath t = true) ->
  exists res tr, analyze_python w filepath report_file b f l p = (Ok res, tr).
Proof.
  intros H. rewrite analyze_python_steps.
  destruct (tool_step_completes w filepath b Bandit [] (H Bandit)) as (r1 & t1 & E1).
  destruct (tool_step_completes w filepath f Flake8 r1 (H Flake8)) as (r2 & t2 & E2).
  destruct (tool_step_completes w filepath l Pylint r2 (H Pylint)) as (r3 & t3 & E3).
  destruct (tool_step_completes w filepath p Pyre r3 (H Pyre)) as (r4 & t4 & E4).
  rewrite E1. cbn [bind]. rewrite E2. cbn [bind]. rewrite E3. cbn [bind]. rewrite E4.
  cbn [bind ret]. eauto.
Qed.

(** Case analysis shared by the next two lemmas: each tool either has no
    entry (excluded by [C] when its flag is set) or exactly one. *)
Ltac tool_cases w filepath C :=
  let shape t :=
    let E := fresh "E" in
    let v := fresh "v" in
    let V := fresh "V" in
    let T := fresh "T" in
    destruct (tool_entry_shape w filepath t) as [[E T]|[_ [v [V T]]]];
    rewrite ?T; try (rewrite C in E by reflexivity; discriminate E) in
  shape Bandit; shape Flake8; shape Pylint; shape Pyre.

Lemma planned_keys w filepath b f l p :
  (forall t, enabled b f l p t = true -> completes w filepath t = true) ->
  keys (planned_entries w filepath b f l p)
  = map tool_name (filter (enabled b f l p) tools).
Proof.
  intros C. unfold planned_entries, tools. cbn [flat_map filter enabled].
  destruct b, f, l, p; tool_cases w filepath C; reflexivity.
Qed.

Lemma planned_get w filepath b f l p :
  (forall t, enabled b f l p t = true -> completes w filepath t = true) ->
  forall u, dict_get (planned_entries w filepath b f l p) (tool_name u)
            = if enabled b f l p u then tool_value w filepath u else None.
Proof.
  intros C u. unfold planned_entries, tools. cbn [flat_map filter enabled].
  destruct b, f, l, p; tool_cases w filepath C;
    destruct u; cbn [enabled]; try reflexivity; simpl; congruence.
Qed.

(** ** C1: one entry per enabled tool, in the order of the flag checks *)

(** C1.  A mapping returned by [analyze_python] has as its keys exactly
    the names of the enabled tools, each once and none for a disabled
    tool, in the order bandit, flake8, pylint, pyre.  It returns a mapping
    exactly when every enabled tool's process runs to an exit status
    (zero or not). *)
Theorem analyze_python_one_entry_per_enabled_tool
    (w : World) (filepath : string) (report_file : option string) (b f l p : bool) :
  (forall res tr,
     analyze_python w filepath report_file b f l p = (Ok res, tr) ->
     keys res = map tool_name (filter (enabled b f l p) tools) /\
     (forall t, occurrences (tool_name t) (keys res)
                = if enabled b f l p t then 1 else 0)) /\
  ((forall t, enabled b f l p t = true -> completes w filepath t = true) <->
   (exists res tr, analyze_python w filepath report_file b f l p = (Ok res, tr))).
Proof.
  split.
  - intros res tr H. apply analyze_python_Ok in H as (-> & C & _).
    rewrite (planned_keys _ _ _ _ _ _ C). split; [reflexivity|].
    intros t. destruct b, f, l, p, t; reflexivity.
  - split.
    + apply analyze_python_returns.
    + intros (res & tr & H). now apply analyze_python_Ok in H.
Qed.

(** ** C2: a non-zero exit status is recorded and goes no further *)

Lemma tool_eq_dec (t u : tool) : {t = u} + {t <> u}.
Proof. decide equality. Defined.

Lemma completes_args w filepath u :
  completes w filepath u = true ->
  exists a rc out err, tool_args u filepath = Ok a /\
    os_spawn w a (tool_cwd u filepath) = Exited rc out err.
Proof.
  unfold completes. destruct (tool_args u filepath) as [a|]; [|discriminate].
  destruct (os_spawn w a (tool_cwd u filepath)) eqn:E; [|discriminate|discriminate].
  intros _. eauto 6.
Qed.

Lemma agree_value w w' filepath u :
  agree_on w w' filepath u -> same_str w w' ->
  tool_value w' filepath u = tool_value w filepath u.
Proof.
  unfold agree_on, tool_value. intros A S.
  destruct (tool_args u filepath) as [a|]; [|reflexivity].
  rewrite (A a eq_refl).
  destruct (os_spawn w a (tool_cwd u filepath)); [|reflexivity|reflexivity].
  unfold entry_text. now rewrite S.
Qed.

Lemma agree_completes w w' filepath u :
  agree_on w w' filepath u ->
  completes w' filepath u = completes w filepath u.
Proof.
  unfold agree_on, completes. intros A.
  destruct (tool_args u filepath) as [a|]; [|reflexivity].
  now rewrite (A a eq_refl).
Qed.

Lemma In_planned_calls filepath b f l p u a :
  enabled b f l p u = true -> tool_args u filepath = Ok a ->
  In (a, tool_cwd u filepath) (planned_calls filepath b f l p).
Proof.
  intros E A. unfold planned_calls. apply in_flat_map. exists u. split.
  - unfold tools. destruct u; simpl; auto.
  - rewrite E. unfold tool_call. rewrite A. now left.
Qed.

(** C2.  Let every enabled tool's process run to an exit status, and let
    tool [t] be enabled and exit with a status other than zero.  Then the
    run returns a mapping in which [t]'s entry is the text ["Error: "]
    followed by the description of the failure; every enabled tool has
    been invoked, in the order of the blocks; and in a world that differs
    only in that [t] exits with status zero, every other tool has the same
    entry. *)
Theorem nonzero_exit_is_local
    (w : World) (filepath : string) (report_file : option string) (b f l p : bool)
    (t : tool) (args : list string) (rc : Z) (out err : string) :
  enabled b f l p t = true ->
  tool_args t filepath = Ok args ->
  os_spawn w args (tool_cwd t filepath) = Exited rc out err ->
  rc <> 0%Z ->
  (forall u, enabled b f l p u = true -> completes w filepath u = true) ->
  exists res tr,
    analyze_python w filepath report_file b f l p = (Ok res, tr) /\
    dict_get res (tool_name t)
      = Some ("Error: " ++ str_CalledProcessError w rc args) /\
    spawns tr = planned_calls filepath b f l p /\
    (forall u, enabled b f l p u = true ->
       exists a, tool_args u filepath = Ok a /\
                 In (a, tool_cwd u filepath) (spawns tr)) /\
    (forall w' out' err',
       os_spawn w' args (tool_cwd t filepath) = Exited 0 out' err' ->
       (forall u, u <> t -> agree_on w w' filepath u) ->
       same_str w w' ->
       exists res' tr',
         analyze_python w' filepath report_file b f l p = (Ok res', tr') /\
         dict_get res' (tool_name t) = Some out' /\
         (forall u, u <> t ->
            dict_get res' (tool_name u) = dict_get res (tool_name u))).
Proof.
  intros En A S Hrc C.
  destruct (analyze_python_returns w filepath report_file b f l p C) as (res & tr & H).
  exists res, tr. split; [exact H|].
  apply analyze_python_Ok in H as (-> & _ & Sp).
  split; [|split; [exact Sp|split]].
  - rewrite (planned_get _ _ _ _ _ _ C), En. unfold tool_value, entry_text.
    rewrite A, S. apply Z.eqb_neq in Hrc. now rewrite Hrc.
  - intros u Eu. destruct (completes_args _ _ _ (C u Eu)) as (a & _ & _ & _ & Ha & _).
    exists a. split; [exact Ha|]. rewrite Sp. now apply In_planned_calls.
  - intros w' out' err' S' Ag Str.
    assert (C' : forall u, enabled b f l p u = true -> completes w' filepath u = true).
    { intros u Eu. destruct (tool_eq_dec u t) as [->|Ne].
      - unfold completes. now rewrite A, S'.
      - rewrite (agree_completes w w' filepath u (Ag u Ne)). auto. }
    destruct (analyze_python_returns w' filepath report_file b f l p C')
      as (res' & tr' & H').
    exists res', tr'. split; [exact H'|].
    apply analyze_python_Ok in H' as (-> & _ & _).
    split.
    + rewrite (planned_get _ _ _ _ _ _ C'), En. unfold tool_value, entry_text.
      now rewrite A, S'.
    + intros u Ne. rewrite (planned_get _ _ _ _ _ _ C'), (planned_get _ _ _ _ _ _ C).
      destruct (enabled b f l p u); [|reflexivity].
      apply agree_value; auto.
Qed.

(** ** A run, evaluated *)

Example demo_run :
  analyze_python Demo.world "src/app.py" None true true false true
  = (Ok [("bandit", Demo.bandit_json);
         ("flake8", "Error: Command '['flake8', 'src/app.py']' returned non-zero exit status 1.");
         ("pyre", "No type errors found" ++ Demo.nl)],
     [Log INFO "Running Bandit: bandit -r src/app.py -q -f json";
      Spawn ["bandit"; "-r"; "src/app.py"; "-q"; "-f"; "json"] None;
      Log INFO "Running Flake8: flake8 src/app.py";
      Spawn ["flake8"; "src/app.py"] None;
      Log ERROR "Flake8 analysis failed: Command '['flake8', 'src/app.py']' returned non-zero exit status 1.";
      Log INFO "Running Pyre: pyre check";
      Spawn ["pyre"; "check"] (Some "src")]).
Proof. reflexivity. Qed.

Lemma analyze_python_one_entry_per_enabled_tool_witness :
  keys [("bandit", Demo.bandit_json);
        ("flake8", "Error: Command '['flake8', 'src/app.py']' returned non-zero exit status 1.");
        ("pyre", "No type errors found" ++ Demo.nl)]
  = ["bandit"; "flake8"; "pyre"].
Proof.
  exact (proj1 (proj1 (analyze_python_one_entry_per_enabled_tool
                         Demo.world "src/app.py" None true true false true)
                      _ _ eq_refl)).
Defined.

Lemma nonzero_exit_is_local_witness :
  exists res tr,
    analyze_python Demo.world "src/app.py" None true true false true = (Ok res, tr) /\
    dict_get res "flake8"
      = Some "Error: Command '['flake8', 'src/app.py']' returned non-zero exit status 1." /\
    (exists res' tr',
       analyze_python Demo.world_flake8_passes "src/app.py" None true true false true
         = (Ok res', tr') /\
       dict_get res' "flake8" = Some "" /\
       dict_get res' "bandit" = dict_get res "bandit" /\
       dict_get res' "pyre" = dict_get res "pyre").
Proof.
  assert (C : forall u, enabled true true false true u = true ->
                        completes Demo.world "src/app.py" u = true)
    by (intros []; intros E; try discriminate E; reflexivity).
  destruct (nonzero_exit_is_local Demo.world "src/app.py" None true true false true
              Flake8 ["flake8"; "src/app.py"] 1
              ("app.py:1:1: F401 'os' imported but unused" ++ Demo.nl) ""
              eq_refl eq_refl eq_refl ltac:(discriminate) C)
    as (res & tr & H & G & _ & _ & I).
  exists res, tr. split; [exact H|]. split; [exact G|].
  destruct (I Demo.world_flake8_passes "" "" eq_refl) as (res' & tr' & H' & G' & O).
  - intros [] Ne a Ha; try reflexivity; try (now contradiction Ne);
      vm_compute in Ha; injection Ha as <-; reflexivity.
  - intros rc cmd. reflexivity.
  - exists res', tr'. split; [exact H'|]. split; [exact G'|].
    split; [apply (O Bandit) | apply (O Pyre)]; discriminate.
Defined.

(** ** Traces of the parts of [main] *)

Section TraceFacts.
Variable P : event -> Prop.

Lemma trace_bind {A B} (m : M A) (k : A -> M B) :
  Forall P (snd m) -> (forall a, Forall P (snd (k a))) ->
  Forall P (snd (x <- m ;; k x)).
Proof.
  destruct m as [[a|e] t1]; simpl; intros H1 H2; [|exact H1].
  specialize (H2 a). destruct (k a) as [r t2]. simpl in *.
  apply Forall_app. now split.
Qed.

Lemma trace_try_except {A} (m : M A) (h : exn -> option (M A)) :
  Forall P (snd m) -> (forall e k, h e = Some k -> Forall P (snd k)) ->
  Forall P (snd (try_except m h)).
Proof.
  destruct m as [[a|e] t1]; simpl; intros H1 H2; [exact H1|].
  destruct (h e) as [k|] eqn:E; [|exact H1].
  specialize (H2 e k E). destruct k as [r t2]. simpl in *.
  apply Forall_app. now split.
Qed.

Lemma trace_for_each {A} (l : list A) (body : A -> M unit) :
  (forall x, Forall P (snd (body x))) -> Forall P (snd (for_each l body)).
Proof.
  intros H. induction l as [|x r IH]; simpl; [constructor|].
  apply trace_bind; auto.
Qed.

End TraceFacts.

Lemma file_or_log_quiet tr :
  Forall file_or_log tr -> prints tr = [] /\ spawns tr = [].
Proof.
  induction 1 as [|ev tr H _ [IH1 IH2]]; [now split|].
  destruct ev; try contradiction; simpl; auto.
Qed.

Lemma log_or_spawn_quiet tr :
  Forall log_or_spawn tr ->
  prints tr = [] /\ forall path cur, file_content path tr cur = cur.
Proof.
  induction 1 as [|ev tr H _ [IH1 IH2]]; [now split|].
  destruct ev; try contradiction; simpl; auto.
Qed.

Lemma open_w_trace w path : Forall file_or_log (snd (open_w w path)).
Proof. unfold open_w. destruct (fs_open w path); simpl; repeat constructor. Qed.

Lemma f_write_trace w path d : Forall file_or_log (snd (f_write w path d)).
Proof.
  unfold f_write. destruct (fs_write w path d) as [[e k]|]; simpl; repeat constructor.
Qed.

Lemma save_report_trace w path results :
  Forall file_or_log (snd (save_report w path results)).
Proof.
  unfold save_report. apply trace_try_except.
  - apply trace_bind; [apply open_w_trace|intros _].
    apply trace_bind; [apply f_write_trace|intros _].
    apply trace_for_each. intros [tool result].
    apply trace_bind; [apply f_write_trace|intros _; apply f_write_trace].
  - intros e k [= <-]. simpl. repeat constructor.
Qed.

(** [save_report] never raises: its handler takes every exception. *)
Lemma save_report_returns w path results :
  fst (save_report w path results) = Ok tt.
Proof.
  unfold save_report.
  match goal with |- fst (try_except ?m _) = _ => destruct m as [[[]|e] t1] end;
    reflexivity.
Qed.

Lemma tool_effect_trace w filepath t r :
  Forall log_or_spawn (snd (tool_effect w filepath t r)).
Proof.
  unfold tool_effect. destruct (tool_args t filepath) as [a|e].
  - destruct (os_spawn w a (tool_cwd t filepath)) as [rc out err|e|m].
    + destruct (rc =? 0)%Z; simpl; repeat constructor.
    + simpl; repeat constructor.
    + simpl; repeat constructor.
  - simpl; repeat constructor.
Qed.

Lemma tool_step_trace w filepath on t r :
  Forall log_or_spawn (snd (tool_step w filepath on t r)).
Proof.
  unfold tool_step. destruct on; [|constructor].
  rewrite run_tool_effect. apply tool_effect_trace.
Qed.

Lemma analyze_python_trace w filepath report_file b f l p :
  Forall log_or_spawn (snd (analyze_python w filepath report_file b f l p)).
Proof.
  rewrite analyze_python_steps.
  repeat (apply trace_bind; [apply tool_step_trace|intros ?]).
  constructor.
Qed.

Lemma main_dispatch w args :
  os_path_exists w (filepath args) = true ->
  supported (language args) = true ->
  main w args = (results <- dispatch w args ;; main_output w (report_file args) results).
Proof.
  unfold main, dispatch, supported. intros -> S. cbn [negb].
  destruct (language args =? "python"); [reflexivity|].
  destruct (language args =? "javascript"); [reflexivity|].
  destruct (language args =? "php"); [reflexivity|discriminate].
Qed.

Lemma dispatch_trace w args : Forall log_or_spawn (snd (dispatch w args)).
Proof.
  unfold dispatch.
  destruct (language args =? "python"); [apply analyze_python_trace|].
  destruct (language args =? "javascript"); simpl; repeat constructor.
Qed.

Lemma for_each_print results :
  for_each results (fun '(tool, result) =>
    print (String "010" "--- " ++ Str.upper tool ++ " ---" ++ String "010" "") ;;
    print result)
  = (Ok tt, result_prints results).
Proof.
  induction results as [|[tool result] r IH]; [reflexivity|].
  cbn [for_each]. rewrite IH. reflexivity.
Qed.

(** The trace of [main_output]: the title, the results, and, when a report
    was asked for, whatever saving it did followed by the closing message. *)
Lemma main_output_trace w report_file results :
  main_output w report_file results =
  (Ok tt,
   Print (String "010" "Analysis Results:") :: result_prints results ++
   match truthy report_file with
   | Some path => snd (save_report w path results)
                  ++ [Print (String "010" "Report saved to: " ++ path)]
   | None => []
   end)%list.
Proof.
  unfold main_output. rewrite for_each_print.
  destruct (truthy report_file) as [path|]; [|reflexivity].
  pose proof (save_report_returns w path results) as R.
  destruct (save_report w path results) as [r t]. simpl in R. subst r.
  reflexivity.
Qed.

(** ** C4: a missing target stops the run before anything is analysed *)

(** C4.  When the target path does not exist, [main] logs the error,
    prints it and returns: this is its whole trace, so no process is
    started, no analysis result is printed and no file is written. *)
Theorem missing_target_stops_the_run (w : World) (args : Args) :
  os_path_exists w (filepath args) = false ->
  main w args
  = (Ok tt,
     [Log ERROR ("File or directory not found: " ++ filepath args);
      Print ("Error: File or directory not found: " ++ filepath args)]) /\
  spawns (snd (main w args)) = [] /\
  prints (snd (main w args))
  = ["Error: File or directory not found: " ++ filepath args] /\
  (forall path, file_content path (snd (main w args)) None = None).
Proof.
  intros H.
  assert (E : main w args
              = (Ok tt,
                 [Log ERROR ("File or directory not found: " ++ filepath args);
                  Print ("Error: File or directory not found: " ++ filepath args)])).
  { unfold main. rewrite H. reflexivity. }
  rewrite E. repeat split.
Qed.

Lemma missing_target_stops_the_run_witness :
  os_path_exists Demo.world "nowhere.py" = false /\
  main Demo.world (Demo.args_of "nowhere.py" "python" (Some "out.txt") true true true true)
  = (Ok tt,
     [Log ERROR "File or directory not found: nowhere.py";
      Print "Error: File or directory not found: nowhere.py"]).
Proof.
  split; [reflexivity|].
  exact (proj1 (missing_target_stops_the_run Demo.world
                  (Demo.args_of "nowhere.py" "python" (Some "out.txt") true true true true)
                  eq_refl)).
Defined.

(** ** C6: the other two languages give a fixed placeholder *)

Lemma main_output_spawns w report_file results :
  spawns (snd (main_output w report_file results)) = [].
Proof.
  rewrite main_output_trace. cbn [snd spawns flat_map]. fold (spawns).
  change (flat_map _ ?t) with (spawns t). rewrite spawns_app.
  assert (R : spawns (result_prints results) = []).
  { induction results as [|[tool result] r IH]; [reflexivity|exact IH]. }
  rewrite R. destruct (truthy report_file) as [path|]; [|reflexivity].
  rewrite spawns_app.
  now rewrite (proj2 (file_or_log_quiet _ (save_report_trace w path results))).
Qed.

(** C6.  With language [javascript] or [php] and an existing target,
    [main] logs a warning and goes on to print (and save) the mapping
    whose single entry is the key [<language>_analysis] with the text
    [Not implemented].  No process is started, and the four tool flags
    make no difference to what the run does. *)
Theorem other_languages_give_placeholder (w : World) (args : Args) :
  os_path_exists w (filepath args) = true ->
  language args = "javascript" \/ language args = "php" ->
  (exists label,
     (label = "JavaScript" /\ language args = "javascript" \/
      label = "PHP" /\ language args = "php") /\
     main w args
     = (logging_warning (label ++ " analysis is not yet implemented.") ;;
        main_output w (report_file args)
          [(language args ++ "_analysis", "Not implemented")])) /\
  spawns (snd (main w args)) = [] /\
  (forall b f l p,
     main w {| filepath := filepath args; language := language args;
               report_file := report_file args;
               use_bandit := b; use_flake8 := f; use_pylint := l; use_pyre := p |}
     = main w args).
Proof.
  intros Ex L.
  assert (E : exists label,
     (label = "JavaScript" /\ language args = "javascript" \/
      label = "PHP" /\ language args = "php") /\
     main w args
     = (logging_warning (label ++ " analysis is not yet implemented.") ;;
        main_output w (report_file args)
          [(language args ++ "_analysis", "Not implemented")])).
  { destruct L as [L|L]; [exists "JavaScript"|exists "PHP"];
      (split; [auto|]); unfold main; rewrite Ex, L; reflexivity. }
  split; [exact E|]. split.
  - destruct E as (label & _ & ->).
    pose proof (main_output_spawns w (report_file args)
                  [(language args ++ "_analysis", "Not implemented")]) as S.
    destruct (main_output w (report_file args) _) as [r t]. exact S.
  - intros b f l p. unfold main. cbn [filepath language report_file].
    rewrite Ex. destruct L as [L|L]; rewrite L; reflexivity.
Qed.

Lemma other_languages_give_placeholder_witness :
  os_path_exists Demo.world "app.py" = true /\
  main Demo.world (Demo.args_of "app.py" "php" None true true true true)
  = (Ok tt,
     [Log WARNING "PHP analysis is not yet implemented.";
      Print (Demo.nl ++ "Analysis Results:");
      Print (Demo.nl ++ "--- PHP_ANALYSIS ---" ++ Demo.nl);
      Print "Not implemented"]) /\
  spawns (snd (main Demo.world (Demo.args_of "app.py" "php" None true true true true))) = [].
Proof.
  split; [reflexivity|]. split; [reflexivity|].
  exact (proj1 (proj2 (other_languages_give_placeholder Demo.world
                  (Demo.args_of "app.py" "php" None true true true true)
                  eq_refl (or_intror eq_refl)))).
Defined.

(** ** C3: an analyser that is not installed *)

(** C3, evaluated.  On a machine without flake8, a run on an existing
    Python file with bandit and flake8 enabled ends with the
    [FileNotFoundError] of the failed launch leaving [main]: the handler
    takes [CalledProcessError] only.  Bandit had run, but nothing is
    printed. *)
Theorem missing_tool_escapes :
  os_path_exists Demo.world_without_flake8 "app.py" = true /\
  main Demo.world_without_flake8
       (Demo.args_of "app.py" "python" None true true false false)
  = (Raise (OSError (FileNotFoundError "[Errno 2] No such file or directory: 'flake8'")),
     [Log INFO "Running Bandit: bandit -r app.py -q -f json";
      Spawn ["bandit"; "-r"; "app.py"; "-q"; "-f"; "json"] None;
      Log INFO "Running Flake8: flake8 app.py";
      Spawn ["flake8"; "app.py"] None]) /\
  prints (snd (main Demo.world_without_flake8
                 (Demo.args_of "app.py" "python" None true true false false))) = [].
Proof. repeat split. Qed.

(** ** C8: the closing message does not wait for the report *)

Lemma file_content_skip path tr : forall cur,
  Forall not_file tr -> file_content path tr cur = cur.
Proof.
  induction tr as [|ev tr IH]; intros cur H; [reflexivity|].
  inversion H as [|? ? Hev Htr]; subst.
  destruct ev; try contradiction; simpl; auto.
Qed.

Lemma file_content_app path t1 t2 cur :
  file_content path (t1 ++ t2) cur = file_content path t2 (file_content path t1 cur).
Proof.
  revert cur. induction t1 as [|ev t1 IH]; intros cur; [reflexivity|].
  destruct ev; simpl; auto.
Qed.

Lemma log_or_spawn_not_file tr : Forall log_or_spawn tr -> Forall not_file tr.
Proof. apply Forall_impl. intros []; simpl; auto. Qed.

Lemma result_prints_not_file results : Forall not_file (result_prints results).
Proof.
  induction results as [|[tool result] r IH]; [constructor|].
  simpl. repeat constructor. exact IH.
Qed.

Lemma save_report_open_fails w path results e :
  fs_open w path = Some e ->
  save_report w path results
  = (Ok tt, [Log ERROR ("Failed to save report: " ++ os_error_str e)]).
Proof. intros H. unfold save_report, open_w. rewrite H. reflexivity. Qed.

Lemma main_trace w args results t0 :
  os_path_exists w (filepath args) = true ->
  supported (language args) = true ->
  dispatch w args = (Ok results, t0) ->
  main w args
  = (Ok tt,
     t0 ++ Print (String "010" "Analysis Results:") :: result_prints results ++
     match truthy (report_file args) with
     | Some path => snd (save_report w path results)
                    ++ [Print (String "010" "Report saved to: " ++ path)]
     | None => []
     end)%list.
Proof.
  intros Ex S D. rewrite (main_dispatch _ _ Ex S), D. cbn [bind].
  now rewrite main_output_trace.
Qed.

(** C8.  Let the run reach the end of [main] (the target exists, the
    language is one of the three, the analysis returned) with a report
    path that is present and not empty.  Then [main] returns normally and
    the last thing it does is print [Report saved to: <path>], whatever
    the file system did.  In particular, when the report file cannot be
    opened, the failure is logged, the file is not written, and the
    message is printed all the same. *)
Theorem report_saved_message_is_unconditional
    (w : World) (args : Args) (results : dict) (t0 : list event) (path : string) :
  os_path_exists w (filepath args) = true ->
  supported (language args) = true ->
  dispatch w args = (Ok results, t0) ->
  truthy (report_file args) = Some path ->
  exists t1,
    main w args
    = (Ok tt, (t0 ++ t1 ++ [Print (String "010" "Report saved to: " ++ path)])%list) /\
    (forall e, fs_open w path = Some e ->
       In (Log ERROR ("Failed to save report: " ++ os_error_str e)) t1 /\
       file_content path (snd (main w args)) None = None).
Proof.
  intros Ex S D T.
  pose proof (main_trace w args results t0 Ex S D) as E. rewrite T in E.
  exists (Print (String "010" "Analysis Results:") :: result_prints results
          ++ snd (save_report w path results))%list.
  split.
  - rewrite E. f_equal. f_equal. cbn [app]. f_equal. now rewrite <- app_assoc.
  - intros e O. rewrite E, (save_report_open_fails _ _ _ _ O). cbn [snd]. split.
    + right. apply in_or_app. right. now left.
    + apply file_content_skip. apply Forall_app. split.
      * apply log_or_spawn_not_file.
        pose proof (dispatch_trace w args) as Q. now rewrite D in Q.
      * constructor; [exact I|]. apply Forall_app. split.
        -- apply result_prints_not_file.
        -- repeat constructor.
Qed.

Lemma report_saved_message_is_unconditional_witness :
  exists t1,
    main Demo.world
      (Demo.args_of "app.py" "python" (Some "/readonly/out.txt") true false false false)
    = (Ok tt,
       ([Log INFO "Running Bandit: bandit -r app.py -q -f json";
         Spawn ["bandit"; "-r"; "app.py"; "-q"; "-f"; "json"] None]
        ++ t1
        ++ [Print (String "010" "Report saved to: /readonly/out.txt")])%list) /\
    In (Log ERROR "Failed to save report: [Errno 13] Permission denied: '/readonly/out.txt'") t1 /\
    file_content "/readonly/out.txt"
      (snd (main Demo.world
              (Demo.args_of "app.py" "python" (Some "/readonly/out.txt")
                 true false false false))) None = None.
Proof.
  destruct (report_saved_message_is_unconditional Demo.world
              (Demo.args_of "app.py" "python" (Some "/readonly/out.txt")
                 true false false false)
              [("bandit", Demo.bandit_json)]
              [Log INFO "Running Bandit: bandit -r app.py -q -f json";
               Spawn ["bandit"; "-r"; "app.py"; "-q"; "-f"; "json"] None]
              "/readonly/out.txt" eq_refl eq_refl eq_refl eq_refl)
    as (t1 & E & F).
  exists t1. split; [exact E|].
  exact (F (PermissionError "[Errno 13] Permission denied: '/readonly/out.txt'") eq_refl).
Defined.

(** ** C5: the report file and the console *)

Lemma append_nil_r (s : string) : s ++ "" = s.
Proof. induction s as [|c s IH]; simpl; [reflexivity|now rewrite IH]. Qed.

Lemma append_assoc (a b c : string) : (a ++ b) ++ c = a ++ (b ++ c).
Proof. induction a as [|x a IH]; simpl; [reflexivity|now rewrite IH]. Qed.

Lemma join_app (l1 l2 : list string) :
  Str.join (l1 ++ l2) = Str.join l1 ++ Str.join l2.
Proof.
  induction l1 as [|x l1 IH]; simpl; [reflexivity|].
  now rewrite IH, append_assoc.
Qed.

Lemma console_app t1 t2 : console (t1 ++ t2) = console t1 ++ console t2.
Proof. unfold console. now rewrite flat_map_app, join_app. Qed.

Lemma console_no_prints tr : prints tr = [] -> console tr = "".
Proof.
  unfold console. induction tr as [|ev tr IH]; [reflexivity|].
  destruct ev; simpl; auto. discriminate.
Qed.

Lemma console_result_prints results :
  console (result_prints results)
  = Str.join (map (fun '(tool, result) =>
      header tool ++ String "010" "" ++ result ++ String "010" "") results).
Proof.
  induction results as [|[tool result] r IH]; [reflexivity|].
  change (result_prints ((tool, result) :: r))
    with ([Print (header tool); Print result] ++ result_prints r)%list.
  rewrite console_app, IH. cbn [map Str.join fold_right].
  unfold console. cbn [flat_map app Str.join fold_right].
  now rewrite append_nil_r, !append_assoc.
Qed.

Lemma for_each_write w path results :
  (forall d, fs_write w path d = None) ->
  for_each results (fun '(tool, result) =>
    f_write w path (String "010" "--- " ++ Str.upper tool ++ " ---" ++ String "010" "") ;;
    f_write w path result)
  = (Ok tt, result_writes path results).
Proof.
  intros W. induction results as [|[tool result] r IH]; [reflexivity|].
  cbn [for_each]. rewrite IH. unfold f_write. rewrite !W. reflexivity.
Qed.

Lemma save_report_succeeds w path results :
  fs_open w path = None -> (forall d, fs_write w path d = None) ->
  save_report w path results
  = (Ok tt,
     Open path :: Write path ("Analysis Report:" ++ String "010" "")
     :: result_writes path results).
Proof.
  intros O W. unfold save_report. rewrite (for_each_write _ _ _ W).
  unfold open_w, f_write. rewrite O, W. reflexivity.
Qed.

Lemma file_content_result_writes path results : forall c rest,
  file_content path (result_writes path results ++ rest) (Some c)
  = file_content path rest
      (Some (c ++ Str.join (map (fun '(tool, result) => header tool ++ result) results))).
Proof.
  induction results as [|[tool result] r IH]; intros c rest.
  - simpl. now rewrite append_nil_r.
  - cbn [result_writes flat_map app file_content map Str.join fold_right].
    rewrite String.eqb_refl. fold (result_writes path r). rewrite IH.
    now rewrite !append_assoc.
Qed.

(** C5, as the code has it.  When a report path is given and the file can
    be opened and written, the file holds the title [Analysis Report:]
    and then, for each entry in order, the header line with the
    upper-cased name and the entry's text; the console shows the same
    headers and texts in the same order, under the title
    [Analysis Results:] (after an empty line), with an empty line after
    each header and a newline after each text, and ends with the
    [Report saved to:] line. *)
Theorem report_file_and_console
    (w : World) (args : Args) (results : dict) (t0 : list event) (path : string) :
  os_path_exists w (filepath args) = true ->
  supported (language args) = true ->
  dispatch w args = (Ok results, t0) ->
  truthy (report_file args) = Some path ->
  fs_open w path = None ->
  (forall d, fs_write w path d = None) ->
  file_content path (snd (main w args)) None = Some (report_text results) /\
  console (snd (main w args)) = console_text results path.
Proof.
  intros Ex S D T O W.
  rewrite (main_trace w args results t0 Ex S D), T, (save_report_succeeds _ _ _ O W).
  cbn [snd].
  pose proof (dispatch_trace w args) as Q. rewrite D in Q. cbn [snd] in Q.
  split.
  - rewrite file_content_app.
    rewrite (file_content_skip path t0 None (log_or_spawn_not_file _ Q)).
    cbn [file_content]. rewrite file_content_app.
    rewrite (file_content_skip _ _ _ (result_prints_not_file results)).
    cbn [app file_content]. rewrite String.eqb_refl.
    rewrite file_content_result_writes. reflexivity.
  - rewrite console_app.
    rewrite (console_no_prints t0 (proj1 (log_or_spawn_quiet _ Q))).
    change (Print ?x :: ?l) with ([Print x] ++ l)%list.
    rewrite !console_app, console_result_prints.
    change (Open path :: Write path ?a :: result_writes path results)
      with (snd (Ok tt, Open path :: Write path a :: result_writes path results)).
    rewrite <- (save_report_succeeds _ _ _ O W).
    rewrite (console_no_prints _
               (proj1 (file_or_log_quiet _ (save_report_trace w path results)))).
    unfold console_text, console. cbn [flat_map app Str.join fold_right].
    now rewrite !append_nil_r, !append_assoc.
Qed.

Lemma report_file_and_console_witness :
  file_content "out.txt"
    (snd (main Demo.world
            (Demo.args_of "app.py" "python" (Some "out.txt") true false false false)))
    None
  = Some (report_text [("bandit", Demo.bandit_json)]) /\
  console (snd (main Demo.world
                  (Demo.args_of "app.py" "python" (Some "out.txt") true false false false)))
  = console_text [("bandit", Demo.bandit_json)] "out.txt".
Proof.
  apply (report_file_and_console Demo.world
           (Demo.args_of "app.py" "python" (Some "out.txt") true false false false)
           [("bandit", Demo.bandit_json)]
           [Log INFO "Running Bandit: bandit -r app.py -q -f json";
            Spawn ["bandit"; "-r"; "app.py"; "-q"; "-f"; "json"] None]
           "out.txt"); reflexivity.
Defined.

(** C5, byte for byte: after a run with one successful tool the file and
    the console hold different texts. *)
Lemma report_file_differs_from_console :
  let tr := snd (main Demo.world
                   (Demo.args_of "app.py" "python" (Some "out.txt")
                      true false false false)) in
  file_content "out.txt" tr None
  = Some ("Analysis Report:" ++ Demo.nl
          ++ Demo.nl ++ "--- BANDIT ---" ++ Demo.nl
          ++ Demo.bandit_json) /\
  console tr
  = Demo.nl ++ "Analysis Results:" ++ Demo.nl
    ++ Demo.nl ++ "--- BANDIT ---" ++ Demo.nl ++ Demo.nl
    ++ Demo.bandit_json ++ Demo.nl
    ++ Demo.nl ++ "Report saved to: out.txt" ++ Demo.nl /\
  file_content "out.txt" tr None <> Some (console tr).
Proof.
  cbv zeta. split; [reflexivity|]. split; [reflexivity|].
  vm_compute. discriminate.
Qed.

(** ** C9: standard error is dropped *)

Lemma bind_ext {A B} (m : M A) (k k' : A -> M B) :
  (forall a, k a = k' a) -> (x <- m ;; k x) = (x <- m ;; k' x).
Proof. intros H. destruct m as [[a|e] t]; simpl; [now rewrite H|reflexivity]. Qed.

Lemma for_each_ext {A} (l : list A) (body body' : A -> M unit) :
  (forall x, body x = body' x) -> for_each l body = for_each l body'.
Proof.
  intros H. induction l as [|x r IH]; [reflexivity|].
  cbn [for_each]. now rewrite H, IH.
Qed.

Lemma try_except_ext {A} (m : M A) (h h' : exn -> option (M A)) :
  (forall e, h e = h' e) -> try_except m h = try_except m h'.
Proof. intros H. destruct m as [[a|e] t]; simpl; [reflexivity|now rewrite H]. Qed.

Section StderrBlind.
Variables w w' : World.
Hypothesis SB : same_but_stderr w w'.

Lemma str_exn_blind e : str_exn w' e = str_exn w e.
Proof. destruct e; simpl; try reflexivity. apply (sb_str _ _ SB). Qed.

Lemma tool_effect_blind filepath t r :
  tool_effect w' filepath t r = tool_effect w filepath t r.
Proof.
  unfold tool_effect. destruct (tool_args t filepath) as [a|e]; [|reflexivity].
  pose proof (sb_spawn _ _ SB a (tool_cwd t filepath)) as H.
  destruct (os_spawn w a (tool_cwd t filepath)) as [rc out err|e|m],
           (os_spawn w' a (tool_cwd t filepath)) as [rc' out' err'|e'|m'];
    simpl in H; try contradiction.
  - destruct H as [<- <-]. unfold entry_text. now rewrite (sb_str _ _ SB).
  - now subst.
  - now subst.
Qed.

Lemma tool_step_blind filepath on t r :
  tool_step w' filepath on t r = tool_step w filepath on t r.
Proof.
  unfold tool_step. destruct on; [|reflexivity].
  rewrite !run_tool_effect. apply tool_effect_blind.
Qed.

Lemma analyze_python_blind filepath report_file b f l p :
  analyze_python w' filepath report_file b f l p
  = analyze_python w filepath report_file b f l p.
Proof.
  rewrite !analyze_python_steps.
  rewrite tool_step_blind. apply bind_ext. intros r1.
  rewrite tool_step_blind. apply bind_ext. intros r2.
  rewrite tool_step_blind. apply bind_ext. intros r3.
  rewrite tool_step_blind. reflexivity.
Qed.

Lemma save_report_blind path results :
  save_report w' path results = save_report w path results.
Proof.
  unfold save_report, open_w. rewrite (sb_open _ _ SB).
  assert (F : forall d, f_write w' path d = f_write w path d)
    by (intros d; unfold f_write; now rewrite (sb_write _ _ SB)).
  rewrite F.
  rewrite (for_each_ext results _
             (fun '(tool, result) =>
                f_write w path (String "010" "--- " ++ Str.upper tool ++ " ---"
                                ++ String "010" "") ;;
                f_write w path result))
    by (intros [tool result]; now rewrite !F).
  apply try_except_ext. intros e. unfold any_Exception.
  now rewrite str_exn_blind.
Qed.

Lemma main_output_blind report_file results :
  main_output w' report_file results = main_output w report_file results.
Proof.
  unfold main_output.
  destruct (truthy report_file) as [path|]; [|reflexivity].
  now rewrite save_report_blind.
Qed.

Lemma main_blind args : main w' args = main w args.
Proof.
  unfold main. rewrite (sb_exists _ _ SB), analyze_python_blind.
  destruct (negb (os_path_exists w (filepath args))); [reflexivity|].
  destruct (language args =? "python");
    [apply bind_ext; intros r; apply main_output_blind|].
  destruct (language args =? "javascript");
    [apply bind_ext; intros r; apply main_output_blind|].
  destruct (language args =? "php");
    [apply bind_ext; intros r; apply main_output_blind|reflexivity].
Qed.

End StderrBlind.

(** C9.  Let every enabled tool's process run to an exit status, and let
    tool [t] be enabled and exit with status zero.  Then the mapping holds
    for [t] exactly what its process wrote to standard output.  What
    processes write to standard error has no effect at all: in a world
    that differs only there, [main] returns the same and leaves the same
    trace, hence the same console text, report file and log. *)
Theorem entry_is_stdout_and_stderr_is_dropped
    (w : World) (args : Args) (t : tool) (a : list string) (out err : string) :
  enabled (use_bandit args) (use_flake8 args) (use_pylint args) (use_pyre args) t = true ->
  tool_args t (filepath args) = Ok a ->
  os_spawn w a (tool_cwd t (filepath args)) = Exited 0 out err ->
  (forall u,
     enabled (use_bandit args) (use_flake8 args) (use_pylint args) (use_pyre args) u = true ->
     completes w (filepath args) u = true) ->
  (exists res tr,
     analyze_python w (filepath args) (report_file args) (use_bandit args)
       (use_flake8 args) (use_pylint args) (use_pyre args) = (Ok res, tr) /\
     dict_get res (tool_name t) = Some out) /\
  (forall w', same_but_stderr w w' -> main w' args = main w args).
Proof.
  intros En A S C. split.
  - destruct (analyze_python_returns w (filepath args) (report_file args) _ _ _ _ C)
      as (res & tr & H).
    exists res, tr. split; [exact H|].
    apply analyze_python_Ok in H as (-> & _ & _).
    rewrite (planned_get _ _ _ _ _ _ C), En. unfold tool_value, entry_text.
    now rewrite A, S.
  - intros w' SB. now apply main_blind.
Qed.

Lemma entry_is_stdout_and_stderr_is_dropped_witness :
  (exists res tr,
     analyze_python Demo.world "app.py" (Some "out.txt") true true false false
     = (Ok res, tr) /\
     dict_get res "bandit" = Some Demo.bandit_json) /\
  main Demo.world_noisy
    (Demo.args_of "app.py" "python" (Some "out.txt") true true false false)
  = main Demo.world
      (Demo.args_of "app.py" "python" (Some "out.txt") true true false false).
Proof.
  assert (C : forall u, enabled true true false false u = true ->
                        completes Demo.world "app.py" u = true)
    by (intros []; intros E; try discriminate E; reflexivity).
  destruct (entry_is_stdout_and_stderr_is_dropped Demo.world
              (Demo.args_of "app.py" "python" (Some "out.txt") true true false false)
              Bandit ["bandit"; "-r"; "app.py"; "-q"; "-f"; "json"]
              Demo.bandit_json "[main] INFO running on Python 3"
              eq_refl eq_refl eq_refl C) as [H1 H2].
  split; [exact H1|]. apply H2.
  constructor; try reflexivity.
  intros a c. unfold Demo.world_noisy. cbn [os_spawn].
  destruct (os_spawn Demo.world a c); simpl; auto.
Defined.

(** ** Splitting a command line without quotes or backslashes *)

Lemma snoc_not_empty tok c : Str.is_empty (Str.snoc tok c) = false.
Proof. destruct tok; reflexivity. Qed.

Lemma read_token_plain s :
  Str.forallb plain s = true ->
  forall st es tok,
    (st = Shlex.St_ws /\ tok = "") \/ (st = Shlex.St_word /\ Str.is_empty tok = false) ->
    Shlex.read_token st es false tok s = Ok (words_from tok s).
Proof.
  induction s as [|c r IH]; intros Hs st es tok Hst.
  - destruct Hst as [[-> ->]|[-> Ht]]; simpl; [reflexivity|].
    unfold Shlex.emits. now rewrite Ht.
  - simpl in Hs. apply andb_true_iff in Hs as [Hc Hr].
    unfold plain in Hc. apply andb_true_iff in Hc as [Hq He].
    apply negb_true_iff in Hq, He.
    destruct Hst as [[-> ->]|[-> Ht]]; simpl; rewrite ?Hq, ?He.
    + destruct (Shlex.whitespace c).
      * apply IH; auto.
      * apply IH; auto.
    + unfold Shlex.emits. rewrite Ht. simpl.
      destruct (Shlex.whitespace c).
      * rewrite (IH Hr Shlex.St_ws Shlex.St_ws ""); auto.
      * apply IH; auto. right. split; [reflexivity|apply snoc_not_empty].
Qed.

Lemma split_plain s : Str.forallb plain s = true -> Shlex.split s = Ok (words s).
Proof. intros H. apply read_token_plain; auto. Qed.

Lemma str_forallb_app P a b :
  Str.forallb P (a ++ b) = Str.forallb P a && Str.forallb P b.
Proof. induction a as [|c a IH]; simpl; [reflexivity|]. now rewrite IH, andb_assoc. Qed.

Lemma words_from_app_ws a : forall tok c b,
  Shlex.whitespace c = true ->
  words_from tok (a ++ String c b) = (words_from tok a ++ words_from "" b)%list.
Proof.
  induction a as [|x a IH]; intros tok c b Hc; simpl.
  - rewrite Hc. destruct (Str.is_empty tok); reflexivity.
  - destruct (Shlex.whitespace x); [|now apply IH].
    destruct (Str.is_empty tok); simpl; now rewrite IH.
Qed.

Lemma words_from_solid a : forall tok,
  Str.existsb Shlex.whitespace a = false ->
  words_from tok a = if Str.is_empty (tok ++ a) then [] else [tok ++ a].
Proof.
  induction a as [|x a IH]; intros tok H; simpl.
  - now rewrite append_nil_r.
  - simpl in H. apply orb_false_iff in H as [Hx Ha]. rewrite Hx.
    rewrite (IH _ Ha). unfold Str.snoc. now rewrite append_assoc.
Qed.

Lemma plain_word_spec s :
  plain_word s = true ->
  Str.forallb plain s = true /\ Str.existsb Shlex.whitespace s = false /\
  Str.is_empty s = false.
Proof.
  unfold plain_word. intros H. apply andb_true_iff in H as [Hn H].
  apply negb_true_iff in Hn. repeat split; [| |exact Hn]; clear Hn.
  - induction s as [|c s IH]; [reflexivity|]. simpl in *.
    apply andb_true_iff in H as [Hc Hs]. apply andb_true_iff in Hc as [Hc _].
    now rewrite Hc, IH.
  - induction s as [|c s IH]; [reflexivity|]. simpl in *.
    apply andb_true_iff in H as [Hc Hs]. apply andb_true_iff in Hc as [_ Hc].
    apply negb_true_iff in Hc. now rewrite Hc, IH.
Qed.

Lemma words_plain_word s : plain_word s = true -> words s = [s].
Proof.
  intros H. apply plain_word_spec in H as (_ & Hw & Hn).
  unfold words. rewrite (words_from_solid _ _ Hw). simpl. now rewrite Hn.
Qed.

(** The argument vectors for a path without quotes or backslashes. *)
Lemma tool_args_plain filepath :
  Str.forallb plain filepath = true ->
  tool_args Bandit filepath
  = Ok (["bandit"; "-r"] ++ words filepath ++ ["-q"; "-f"; "json"])%list /\
  tool_args Flake8 filepath = Ok ("flake8" :: words filepath) /\
  tool_args Pylint filepath
  = Ok ("pylint" :: words filepath ++ ["--output-format=json"])%list.
Proof.
  intros H. unfold tool_args, tool_command. repeat split.
  - rewrite split_plain by (now rewrite !str_forallb_app, H).
    unfold words. simpl.
    now rewrite (words_from_app_ws filepath "" " " "-q -f json" eq_refl).
  - rewrite split_plain by (now rewrite !str_forallb_app, H). reflexivity.
  - rewrite split_plain by (now rewrite !str_forallb_app, H).
    unfold words. simpl.
    now rewrite (words_from_app_ws filepath "" " " "--output-format=json" eq_refl).
Qed.

(** ** C7: where each tool runs and what it is given *)

Lemma tool_step_spawns w filepath on t r :
  spawns (snd (tool_step w filepath on t r))
  = if on then tool_call filepath t else [].
Proof.
  unfold tool_step. destruct on; [|reflexivity].
  rewrite run_tool_effect. unfold tool_effect, tool_call.
  destruct (tool_args t filepath) as [a|e]; [|reflexivity].
  destruct (os_spawn w a (tool_cwd t filepath)) as [rc out err|e|m];
    [|reflexivity|reflexivity].
  destruct (rc =? 0)%Z; reflexivity.
Qed.

Lemma bind_spawns_prefix {A B} (m : M A) (k : A -> M B) (here later : list (list string * option string)) :
  spawns (snd m) = here ->
  (forall a, exists rest, later = (spawns (snd (k a)) ++ rest)%list) ->
  exists rest, (here ++ later)%list = (spawns (snd (x <- m ;; k x)) ++ rest)%list.
Proof.
  intros <- H. destruct m as [[a|e] t1]; simpl.
  - destruct (H a) as [rest ->]. destruct (k a) as [r t2]. simpl.
    exists rest. now rewrite spawns_app, app_assoc.
  - now exists later.
Qed.

(** Whatever happens, the processes a run starts are the planned calls of
    the enabled tools, in order, up to the point where the run stopped. *)
Lemma analyze_python_spawns_prefix w filepath report_file b f l p :
  exists rest,
    planned_calls filepath b f l p
    = (spawns (snd (analyze_python w filepath report_file b f l p)) ++ rest)%list.
Proof.
  rewrite analyze_python_steps. unfold planned_calls, tools.
  cbn [flat_map enabled]. rewrite app_nil_r.
  apply bind_spawns_prefix; [apply tool_step_spawns|intros r1].
  apply bind_spawns_prefix; [apply tool_step_spawns|intros r2].
  apply bind_spawns_prefix; [apply tool_step_spawns|intros r3].
  rewrite <- (app_nil_r (if p then _ else _)).
  apply bind_spawns_prefix; [apply tool_step_spawns|intros r4].
  now exists [].
Qed.

Lemma list_ascii_app a b :
  list_ascii_of_string (a ++ b)
  = (list_ascii_of_string a ++ list_ascii_of_string b)%list.
Proof. induction a as [|c a IH]; simpl; [reflexivity|now rewrite IH]. Qed.

Lemma drop_while_solid P l rest c :
  forallb P l = true -> P c = false ->
  Path.drop_while P (l ++ c :: rest) = c :: rest.
Proof.
  intros Hl Hc. induction l as [|x l IH]; simpl.
  - now rewrite Hc.
  - simpl in Hl. apply andb_true_iff in Hl as [-> Hl]. auto.
Qed.

(** [dirname] gives the text before the last separator: for a path made
    of a directory part that does not end in a separator, a separator
    and a name without separators (the name may be empty), it is the
    directory part. *)
Lemma dirname_parent (d : string) (c : ascii) (name : string) :
  Path.is_sep c = false ->
  Str.forallb (fun x => negb (Path.is_sep x)) name = true ->
  Path.dirname (d ++ String c (String "/" name)) = d ++ String c "".
Proof.
  intros Hc Hn. unfold Path.dirname, Path.head_of.
  assert (Hn' : forallb (fun x => negb (Path.is_sep x))
                  (rev (list_ascii_of_string name)) = true).
  { rewrite forallb_forall. intros x Hx. apply in_rev in Hx. revert x Hx.
    rewrite <- forallb_forall. clear -Hn.
    induction name as [|y name IH]; [reflexivity|]. simpl in *.
    apply andb_true_iff in Hn as [-> Hn]. auto. }
  rewrite list_ascii_app. cbn [list_ascii_of_string].
  rewrite rev_app_distr. cbn [rev]. rewrite <- !app_assoc. cbn [app].
  rewrite (drop_while_solid _ _ _ "/"%char Hn' eq_refl).
  cbn [rev]. rewrite rev_involutive.
  set (ld := list_ascii_of_string d).
  assert (F : forallb Path.is_sep ((ld ++ [c]) ++ ["/"%char]) = false).
  { rewrite !List.forallb_app. simpl. rewrite Hc. now rewrite andb_false_r. }
  assert (E : exists x xs, ((ld ++ [c]) ++ ["/"%char])%list = x :: xs)
    by (destruct ld; simpl; eauto).
  destruct E as (x & xs & E). rewrite E at 1. rewrite F. cbn [negb].
  unfold Path.rstrip_sep. rewrite !rev_app_distr. cbn [rev app Path.drop_while].
  change (Path.is_sep "/") with true. cbn iota. rewrite Hc.
  cbn [rev]. rewrite rev_involutive. unfold ld.
  change [c] with (list_ascii_of_string (String c "")).
  now rewrite <- list_ascii_app, string_of_list_ascii_of_string.
Qed.

(** C7, on a path with a space in it.  The target exists, and flake8 is
    enabled on it; the command line is split at the space, so flake8 is
    started with the two halves of the path as arguments and the path
    itself is not one of them. *)
Lemma path_with_space_is_not_an_argument :
  os_path_exists Demo.world "my dir/app.py" = true /\
  spawns (snd (analyze_python Demo.world "my dir/app.py" None false true false false))
  = [(["flake8"; "my"; "dir/app.py"], None)] /\
  ~ In "my dir/app.py" ["flake8"; "my"; "dir/app.py"].
Proof.
  split; [reflexivity|]. split; [reflexivity|].
  simpl. intros [H|[H|[H|[]]]]; discriminate H.
Qed.



(** ** C10: white space in the target path *)

Lemma solid_snoc tok c :
  solid tok -> Shlex.whitespace c = false -> solid (Str.snoc tok c).
Proof.
  unfold solid, Str.snoc. intros Ht Hc.
  induction tok as [|x tok IH]; simpl in *; [now rewrite Hc|].
  apply orb_false_iff in Ht as [-> Ht]. auto.
Qed.

Lemma words_from_are_solid s : forall tok,
  solid tok -> Forall solid (words_from tok s).
Proof.
  induction s as [|c r IH]; intros tok Ht; simpl.
  - destruct (Str.is_empty tok); repeat constructor; exact Ht.
  - destruct (Shlex.whitespace c) eqn:Hc.
    + destruct (Str.is_empty tok); [|constructor; [exact Ht|]]; now apply IH.
    + apply IH. now apply solid_snoc.
Qed.

Lemma words_from_pending s : forall tok,
  Str.is_empty tok = false -> 1 <= length (words_from tok s).
Proof.
  induction s as [|c r IH]; intros tok Ht; simpl.
  - rewrite Ht. simpl. lia.
  - destruct (Shlex.whitespace c).
    + rewrite Ht. simpl. lia.
    + apply IH, snoc_not_empty.
Qed.

Lemma words_from_has_solid s : forall tok,
  has_solid s = true -> 1 <= length (words_from tok s).
Proof.
  unfold has_solid. induction s as [|c r IH]; intros tok H; simpl in *; [discriminate|].
  destruct (Shlex.whitespace c); simpl in H.
  - destruct (Str.is_empty tok); simpl; [now apply IH|lia].
  - apply words_from_pending, snoc_not_empty.
Qed.

(** C10, as the code has it.  The bandit, flake8 and pylint command lines
    are the target path put into a fixed text and split by [shlex.split].
    For a path without quotes or backslashes the path's part of the
    argument vector is its list of white-space-separated words.  So a
    path that contains white space is never passed as an argument, and
    it is passed as two or more arguments when the white space stands
    between two parts that are not all white space. *)
Theorem whitespace_splits_the_path (filepath : string) :
  Str.forallb plain filepath = true ->
  (tool_args Bandit filepath
   = Ok (["bandit"; "-r"] ++ words filepath ++ ["-q"; "-f"; "json"])%list /\
   tool_args Flake8 filepath = Ok ("flake8" :: words filepath) /\
   tool_args Pylint filepath
   = Ok ("pylint" :: words filepath ++ ["--output-format=json"])%list) /\
  (Str.existsb Shlex.whitespace filepath = true ->
   forall t args, tool_args t filepath = Ok args -> ~ In filepath args) /\
  (forall u c v,
     filepath = u ++ String c v -> Shlex.whitespace c = true ->
     has_solid u = true -> has_solid v = true ->
     2 <= length (words filepath)).
Proof.
  intros H. pose proof (tool_args_plain filepath H) as (A1 & A2 & A3).
  split; [now repeat split|]. split.
  - intros Hw t args Ht Hin.
    assert (S : Forall solid args).
    { pose proof (words_from_are_solid filepath "" eq_refl) as Sw.
      fold (words filepath) in Sw.
      destruct t.
      - rewrite A1 in Ht. injection Ht as <-.
        repeat (apply Forall_cons; [reflexivity|]).
        apply Forall_app. split; [exact Sw|]. repeat constructor.
      - rewrite A2 in Ht. injection Ht as <-. now constructor.
      - rewrite A3 in Ht. injection Ht as <-.
        apply Forall_cons; [reflexivity|].
        apply Forall_app. split; [exact Sw|]. repeat constructor.
      - vm_compute in Ht. injection Ht as <-. repeat constructor. }
    rewrite Forall_forall in S. specialize (S _ Hin). unfold solid in S. congruence.
  - intros u c v -> Hc Hu Hv. unfold words.
    rewrite (words_from_app_ws u "" c v Hc), length_app.
    pose proof (words_from_has_solid u "" Hu).
    pose proof (words_from_has_solid v "" Hv). lia.
Qed.

Lemma whitespace_splits_the_path_witness :
  Str.forallb plain "my dir/app.py" = true /\
  tool_args Pylint "my dir/app.py"
  = Ok ["pylint"; "my"; "dir/app.py"; "--output-format=json"] /\
  ~ In "my dir/app.py" ["pylint"; "my"; "dir/app.py"; "--output-format=json"] /\
  2 <= length (words "my dir/app.py").
Proof.
  split; [reflexivity|].
  destruct (whitespace_splits_the_path "my dir/app.py" eq_refl) as ((_ & _ & A) & N & L).
  split; [exact A|]. split.
  - exact (N eq_refl Pylint _ eq_refl).
  - exact (L "my" " "%char "dir/app.py" eq_refl eq_refl eq_refl eq_refl).
Defined.

(** C10, on a path that ends in a space: the path contains white space,
    and each of the three tools is given one argument for it, the same as
    for the path without the space. *)
Lemma trailing_space_gives_one_argument :
  Str.existsb Shlex.whitespace "app.py " = true /\
  os_path_exists Demo.world "app.py " = true /\
  tool_args Bandit "app.py " = Ok ["bandit"; "-r"; "app.py"; "-q"; "-f"; "json"] /\
  tool_args Flake8 "app.py " = Ok ["flake8"; "app.py"] /\
  tool_args Pylint "app.py " = Ok ["pylint"; "app.py"; "--output-format=json"] /\
  tool_args Flake8 "app.py" = Ok ["flake8"; "app.py"].
Proof. repeat split. Qed.
(** ** The lexer and [dirname] on examples *)

Example shlex_ex1 : Shlex.split "bandit -r a.py -q -f json" = Ok ["bandit"; "-r"; "a.py"; "-q"; "-f"; "json"].
Proof. reflexivity. Qed.
Example shlex_ex2 : Shlex.split "flake8 my dir/a.py" = Ok ["flake8"; "my"; "dir/a.py"].
Proof. reflexivity. Qed.
Example shlex_ex3 : Shlex.split "flake8 'my dir'/a.py" = Ok ["flake8"; "my dir/a.py"].
Proof. reflexivity. Qed.
Example shlex_ex4 : Shlex.split "flake8 it's.py" = Raise (ValueError "No closing quotation").
Proof. reflexivity. Qed.
Example shlex_ex5 : Shlex.split "a 'b  c'd '' e\ f" = Ok ["a"; "b  cd"; ""; "e f"].
Proof. reflexivity. Qed.
Example shlex_ex6 :
  Shlex.split ("x " ++ String "034" ("b\" ++ String "034" ("c\d 'e" ++ String "034" " y")))
  = Ok ["x"; "b" ++ String "034" "c\d 'e"; "y"].
Proof. reflexivity. Qed.
Example dirname_ex : map Path.dirname ["a/b/c.py"; "c.py"; "/c.py"; "a/b/"; "//x"; "a//b"]
  = ["a/b"; ""; "/"; "a/b"; "//"; "a"].
Proof. reflexivity. Qed.

(** The [ValueError] of [shlex.split] passes the handler of a block too. *)
Example unbalanced_quote_escapes :
  analyze_python Demo.world "it's.py" None true false false false
  = (Raise (ValueError "No closing quotation"),
     [Log INFO "Running Bandit: bandit -r it's.py -q -f json"]).
Proof. reflexivity. Qed.

(** ** Beyond the claims: how a run fails *)

Lemma bind_Raise_inv {A B} (m : M A) (k : A -> M B) e tr :
  (x <- m ;; k x) = (Raise e, tr) ->
  m = (Raise e, tr) \/
  exists a t1 t2, m = (Ok a, t1) /\ k a = (Raise e, t2) /\ tr = (t1 ++ t2)%list.
Proof.
  destruct m as [[a|e'] t1]; simpl.
  - destruct (k a) as [r t2] eqn:Hk. intros [= -> <-]. right. now exists a, t1, t2.
  - intros [= -> ->]. now left.
Qed.

Lemma tool_exn_completes w filepath t :
  tool_exn w filepath t = None <-> completes w filepath t = true.
Proof.
  unfold tool_exn, completes.
  destruct (tool_args t filepath) as [a|e]; [|split; discriminate].
  destruct (os_spawn w a (tool_cwd t filepath)); split; auto; discriminate.
Qed.

Lemma tool_step_Raise w filepath on t r e tr :
  tool_step w filepath on t r = (Raise e, tr) ->
  on = true /\ tool_exn w filepath t = Some e /\ spawns tr = tool_call filepath t.
Proof.
  unfold tool_step. destruct on; [|discriminate].
  rewrite run_tool_effect. unfold tool_effect, tool_exn, tool_call.
  destruct (tool_args t filepath) as [a|e'].
  - destruct (os_spawn w a (tool_cwd t filepath)) as [rc out err|e'|m].
    + discriminate.
    + intros [= <- <-]. auto.
    + intros [= <- <-]. auto.
  - intros [= <- <-]. auto.
Qed.

Lemma tool_step_exn w filepath t r e :
  tool_exn w filepath t = Some e ->
  exists tr, tool_step w filepath true t r = (Raise e, tr) /\
             spawns tr = tool_call filepath t.
Proof.
  unfold tool_step. rewrite run_tool_effect. unfold tool_effect, tool_exn, tool_call.
  destruct (tool_args t filepath) as [a|e'].
  - destruct (os_spawn w a (tool_cwd t filepath)) as [rc out err|e'|m];
      [discriminate| |]; intros [= <-]; eauto.
  - intros [= <-]. eauto.
Qed.

Lemma analyze_python_Raise w filepath report_file b f l p e tr :
  analyze_python w filepath report_file b f l p = (Raise e, tr) ->
  exists t, enabled b f l p t = true /\ tool_exn w filepath t = Some e.
Proof.
  rewrite analyze_python_steps. intros H.
  apply bind_Raise_inv in H as [H|(r1 & t1 & u1 & _ & H & _)];
    [apply tool_step_Raise in H as (-> & H & _); now exists Bandit|].
  apply bind_Raise_inv in H as [H|(r2 & t2 & u2 & _ & H & _)];
    [apply tool_step_Raise in H as (-> & H & _); now exists Flake8|].
  apply bind_Raise_inv in H as [H|(r3 & t3 & u3 & _ & H & _)];
    [apply tool_step_Raise in H as (-> & H & _); now exists Pylint|].
  apply bind_Raise_inv in H as [H|(r4 & t4 & u4 & _ & H & _)];
    [apply tool_step_Raise in H as (-> & H & _); now exists Pyre|].
  discriminate H.
Qed.

Lemma tool_exn_sources w filepath t e :
  tool_exn w filepath t = Some e ->
  (tool_args t filepath = Raise e /\ exists m, e = ValueError m) \/
  (exists args o,
     tool_args t filepath = Ok args /\
     os_spawn w args (tool_cwd t filepath) = NotStarted o /\ e = OSError o) \/
  (exists args m,
     tool_args t filepath = Ok args /\
     os_spawn w args (tool_cwd t filepath) = Undecodable m /\
     e = UnicodeDecodeError m).
Proof.
  unfold tool_exn, tool_args.
  destruct (Shlex.split (tool_command t filepath)) as [a|e'] eqn:Hs.
  - destruct (os_spawn w a (tool_cwd t filepath)) as [rc out err|o|m] eqn:Ho;
      [discriminate| |]; intros [= <-].
    + right. left. now exists a, o.
    + right. right. now exists a, m.
  - intros [= <-]. left. split; [reflexivity|]. eapply split_raises, Hs.
Qed.

(** X1.  When [analyze_python] raises, the exception is the one an
    enabled tool's block let through, and it has one of three sources:
    the [ValueError] of [shlex.split] on the tool's command line, the
    [OSError] of a process that could not be started, or the
    [UnicodeDecodeError] of output that cannot be decoded.  A
    [CalledProcessError] never leaves [analyze_python]. *)
Theorem analyze_python_raises_what_a_block_lets_through
    (w : World) (filepath : string) (report_file : option string) (b f l p : bool)
    (e : exn) (tr : list event) :
  analyze_python w filepath report_file b f l p = (Raise e, tr) ->
  (exists t,
     enabled b f l p t = true /\
     ((tool_args t filepath = Raise e /\ exists m, e = ValueError m) \/
      (exists args o,
         tool_args t filepath = Ok args /\
         os_spawn w args (tool_cwd t filepath) = NotStarted o /\ e = OSError o) \/
      (exists args m,
         tool_args t filepath = Ok args /\
         os_spawn w args (tool_cwd t filepath) = Undecodable m /\
         e = UnicodeDecodeError m))) /\
  (forall rc cmd out err, e <> CalledProcessError rc cmd out err).
Proof.
  intros H. apply analyze_python_Raise in H as (t & En & G).
  apply tool_exn_sources in G. split; [now exists t|].
  intros rc cmd out err ->.
  destruct G as [[_ [m G]]|[(a & o & _ & _ & G)|(a & m & _ & _ & G)]];
    discriminate G.
Qed.

Lemma analyze_python_raises_what_a_block_lets_through_witness :
  exists t,
    enabled true true false false t = true /\
    ((tool_args t "app.py"
      = Raise (OSError (FileNotFoundError
                 "[Errno 2] No such file or directory: 'flake8'")) /\
      exists m, OSError (FileNotFoundError
                  "[Errno 2] No such file or directory: 'flake8'") = ValueError m) \/
     (exists args o,
        tool_args t "app.py" = Ok args /\
        os_spawn Demo.world_without_flake8 args (tool_cwd t "app.py") = NotStarted o /\
        OSError (FileNotFoundError
          "[Errno 2] No such file or directory: 'flake8'") = OSError o) \/
     (exists args m,
        tool_args t "app.py" = Ok args /\
        os_spawn Demo.world_without_flake8 args (tool_cwd t "app.py") = Undecodable m /\
        OSError (FileNotFoundError
          "[Errno 2] No such file or directory: 'flake8'") = UnicodeDecodeError m)).
Proof.
  exact (proj1 (analyze_python_raises_what_a_block_lets_through
                  Demo.world_without_flake8 "app.py" None true true false false
                  _ _ eq_refl)).
Defined.

Lemma first_failing_block_aux
    (w : World) (filepath : string) (report_file : option string) (b f l p : bool)
    (t : tool) (e : exn) :
  enabled b f l p t = true ->
  tool_exn w filepath t = Some e ->
  (forall u, (tool_index u < tool_index t)%nat -> enabled b f l p u = true ->
             completes w filepath u = true) ->
  exists tr,
    analyze_python w filepath report_file b f l p = (Raise e, tr) /\
    spawns tr
    = flat_map (fun u => if enabled b f l p u && (tool_index u <=? tool_index t)%nat
                         then tool_call filepath u else []) tools.
Proof.
  intros En Ex Before. rewrite analyze_python_steps.
  assert (step : forall u r, (tool_index u < tool_index t)%nat ->
            exists r' tr', tool_step w filepath (enabled b f l p u) u r = (Ok r', tr') /\
                           spawns tr' = if enabled b f l p u
                                        then tool_call filepath u else []).
  { intros u r Hu.
    destruct (tool_step_completes w filepath (enabled b f l p u) u r (Before u Hu))
      as (r' & tr' & E).
    exists r', tr'. split; [exact E|]. now apply tool_step_Ok in E. }
  unfold tools. cbn [flat_map]. rewrite app_nil_r.
  destruct t; cbn [enabled tool_index] in *.
  - subst b. destruct (tool_step_exn w filepath Bandit [] e Ex) as (t0 & E0 & S0).
    rewrite E0. cbn [bind]. exists t0. split; [reflexivity|].
    rewrite S0. cbn. now rewrite !andb_false_r, !app_nil_r.
  - subst f. destruct (step Bandit [] ltac:(cbn; lia)) as (r1 & t1 & E1 & S1).
    cbn [enabled] in E1, S1. rewrite E1. cbn [bind].
    destruct (tool_step_exn w filepath Flake8 r1 e Ex) as (t0 & E0 & S0).
    rewrite E0. exists (t1 ++ t0)%list. split; [reflexivity|].
    rewrite spawns_app, S1, S0. cbn.
    rewrite !andb_false_r, !andb_true_r, !app_nil_r. reflexivity.
  - subst l. destruct (step Bandit [] ltac:(cbn; lia)) as (r1 & t1 & E1 & S1).
    cbn [enabled] in E1, S1. rewrite E1. cbn [bind].
    destruct (step Flake8 r1 ltac:(cbn; lia)) as (r2 & t2 & E2 & S2).
    cbn [enabled] in E2, S2. rewrite E2. cbn [bind].
    destruct (tool_step_exn w filepath Pylint r2 e Ex) as (t0 & E0 & S0).
    rewrite E0. exists (t1 ++ t2 ++ t0)%list. split; [reflexivity|].
    rewrite !spawns_app, S1, S2, S0. cbn.
    rewrite !andb_false_r, !andb_true_r, !app_nil_r. reflexivity.
  - subst p. destruct (step Bandit [] ltac:(cbn; lia)) as (r1 & t1 & E1 & S1).
    cbn [enabled] in E1, S1. rewrite E1. cbn [bind].
    destruct (step Flake8 r1 ltac:(cbn; lia)) as (r2 & t2 & E2 & S2).
    cbn [enabled] in E2, S2. rewrite E2. cbn [bind].
    destruct (step Pylint r2 ltac:(cbn; lia)) as (r3 & t3 & E3 & S3).
    cbn [enabled] in E3, S3. rewrite E3. cbn [bind].
    destruct (tool_step_exn w filepath Pyre r3 e Ex) as (t0 & E0 & S0).
    rewrite E0. exists (t1 ++ t2 ++ t3 ++ t0)%list. split; [reflexivity|].
    rewrite !spawns_app, S1, S2, S3, S0. cbn.
    rewrite !andb_true_r. reflexivity.
Qed.



(** ** Beyond the claims: what [main] does around the analysis *)

(** X3.  When the analysis of a Python target raises, [main] raises the
    same exception with the same trace: nothing has been printed, not
    even the results of the tools that had finished, and no report file
    has been opened. *)
Theorem failed_analysis_leaves_no_output
    (w : World) (args : Args) (e : exn) (tr : list event) :
  os_path_exists w (filepath args) = true ->
  language args = "python" ->
  analyze_python w (filepath args) (report_file args) (use_bandit args)
    (use_flake8 args) (use_pylint args) (use_pyre args) = (Raise e, tr) ->
  main w args = (Raise e, tr) /\
  prints tr = [] /\
  (forall path cur, file_content path tr cur = cur).
Proof.
  intros Ex L H. split.
  - unfold main. rewrite Ex, L, H. reflexivity.
  - pose proof (analyze_python_trace w (filepath args) (report_file args)
                  (use_bandit args) (use_flake8 args) (use_pylint args)
                  (use_pyre args)) as Q.
    rewrite H in Q. now apply log_or_spawn_quiet.
Qed.

Lemma failed_analysis_leaves_no_output_witness :
  main Demo.world_without_flake8
    (Demo.args_of "app.py" "python" (Some "out.txt") true true false false)
  = (Raise (OSError (FileNotFoundError
              "[Errno 2] No such file or directory: 'flake8'")),
     [Log INFO "Running Bandit: bandit -r app.py -q -f json";
      Spawn ["bandit"; "-r"; "app.py"; "-q"; "-f"; "json"] None;
      Log INFO "Running Flake8: flake8 app.py";
      Spawn ["flake8"; "app.py"] None]).
Proof.
  exact (proj1 (failed_analysis_leaves_no_output Demo.world_without_flake8
                  (Demo.args_of "app.py" "python" (Some "out.txt") true true false false)
                  _ _ eq_refl eq_refl eq_refl)).
Defined.

(** X6.  A report path that is absent or the empty string is no report
    path: once the analysis has returned, [main] prints the results and
    returns without opening a file and without the closing message. *)
Theorem no_report_without_a_path
    (w : World) (args : Args) (results : dict) (t0 : list event) :
  os_path_exists w (filepath args) = true ->
  supported (language args) = true ->
  dispatch w args = (Ok results, t0) ->
  report_file args = None \/ report_file args = Some "" ->
  main w args
  = (Ok tt, (t0 ++ Print (String "010" "Analysis Results:") :: result_prints results)%list) /\
  (forall path cur, file_content path (snd (main w args)) cur = cur).
Proof.
  intros Ex S D R.
  assert (T : truthy (report_file args) = None) by (destruct R as [-> | ->]; reflexivity).
  pose proof (main_trace w args results t0 Ex S D) as E. rewrite T, app_nil_r in E.
  rewrite E. split; [reflexivity|]. intros path cur. cbn [snd].
  apply file_content_skip. apply Forall_app. split.
  - apply log_or_spawn_not_file.
    pose proof (dispatch_trace w args) as Q. now rewrite D in Q.
  - constructor; [exact I|apply result_prints_not_file].
Qed.

Lemma no_report_without_a_path_witness :
  main Demo.world (Demo.args_of "app.py" "php" (Some "") false false false false)
  = (Ok tt,
     [Log WARNING "PHP analysis is not yet implemented.";
      Print (String "010" "Analysis Results:");
      Print (String "010" "--- PHP_ANALYSIS ---" ++ String "010" "");
      Print "Not implemented"]).
Proof.
  exact (proj1 (no_report_without_a_path Demo.world
                  (Demo.args_of "app.py" "php" (Some "") false false false false)
                  [("php_analysis", "Not implemented")]
                  [Log WARNING "PHP analysis is not yet implemented."]
                  eq_refl eq_refl eq_refl (or_intror eq_refl))).
Defined.

(** ** Beyond the claims: the log of the analysis *)

Lemma logs_app t1 t2 : logs (t1 ++ t2) = (logs t1 ++ logs t2)%list.
Proof. apply flat_map_app. Qed.

Lemma tool_step_logs w filepath on t r r' tr :
  tool_step w filepath on t r = (Ok r', tr) ->
  logs tr = if on then tool_logs w filepath t else [].
Proof.
  unfold tool_step. destruct on; [|now intros [= <- <-]].
  rewrite run_tool_effect. unfold tool_effect, tool_logs.
  destruct (tool_args t filepath) as [a|e]; [|discriminate].
  destruct (os_spawn w a (tool_cwd t filepath)) as [rc out err|e|m];
    [|discriminate|discriminate].
  intros [= <- <-]. destruct (rc =? 0)%Z; reflexivity.
Qed.

(** X7.  The analysis only logs and starts processes: whatever the
    outcome, [analyze_python] prints nothing and touches no file.  When
    it returns, its log is, for each enabled tool in order, the record
    [Running <Tool>: <command>] at level INFO, followed by one record
    [<Tool> analysis failed: ...] at level ERROR exactly when that tool
    exited with a status other than zero. *)
Theorem analysis_only_logs_and_spawns
    (w : World) (filepath : string) (report_file : option string) (b f l p : bool) :
  prints (snd (analyze_python w filepath report_file b f l p)) = [] /\
  (forall path cur,
     file_content path (snd (analyze_python w filepath report_file b f l p)) cur = cur) /\
  (forall res tr,
     analyze_python w filepath report_file b f l p = (Ok res, tr) ->
     logs tr
     = flat_map (fun t => if enabled b f l p t then tool_logs w filepath t else [])
         tools).
Proof.
  pose proof (log_or_spawn_quiet _ (analyze_python_trace w filepath report_file b f l p))
    as [Q1 Q2].
  split; [exact Q1|]. split; [exact Q2|].
  intros res tr H. rewrite analyze_python_steps in H.
  apply bind_Ok_inv in H as (r1 & t1 & u1 & H1 & H & ->).
  apply bind_Ok_inv in H as (r2 & t2 & u2 & H2 & H & ->).
  apply bind_Ok_inv in H as (r3 & t3 & u3 & H3 & H & ->).
  apply bind_Ok_inv in H as (r4 & t4 & u4 & H4 & H & ->).
  injection H as <- <-.
  apply tool_step_logs in H1, H2, H3, H4.
  rewrite !logs_app, H1, H2, H3, H4. unfold tools. cbn [flat_map enabled logs].
  now rewrite !app_nil_r.
Qed.

Lemma analysis_only_logs_and_spawns_witness :
  logs (snd (analyze_python Demo.world "app.py" None true true false false))
  = [(INFO, "Running Bandit: bandit -r app.py -q -f json");
     (INFO, "Running Flake8: flake8 app.py");
     (ERROR, "Flake8 analysis failed: Command '['flake8', 'app.py']' returned non-zero exit status 1.")].
Proof.
  exact (proj2 (proj2 (analysis_only_logs_and_spawns Demo.world "app.py" None
                         true true false false)) _ _ eq_refl).
Defined.

(** ** Beyond the claims: saving the report *)

Lemma prints_app t1 t2 : prints (t1 ++ t2) = (prints t1 ++ prints t2)%list.
Proof. apply flat_map_app. Qed.

Lemma touches_only_other path path' tr : forall cur,
  Forall (touches_only path) tr -> path' <> path ->
  file_content path' tr cur = cur.
Proof.
  induction tr as [|ev tr IH]; intros cur H Ne; [reflexivity|].
  inversion H as [|? ? Hev Htr]; subst.
  assert (F : (path =? path') = false) by (apply String.eqb_neq; congruence).
  destruct ev; try contradiction; simpl in *; subst; rewrite ?F; auto.
Qed.

Lemma touches_only_file_or_log path tr :
  Forall (touches_only path) tr -> Forall file_or_log tr.
Proof. apply Forall_impl. intros []; simpl; auto. Qed.

Lemma save_report_touches_only w path results :
  Forall (touches_only path) (snd (save_report w path results)).
Proof.
  assert (O : Forall (touches_only path) (snd (open_w w path)))
    by (unfold open_w; destruct (fs_open w path); simpl; repeat constructor).
  assert (W : forall d, Forall (touches_only path) (snd (f_write w path d)))
    by (intros d; unfold f_write; destruct (fs_write w path d) as [[e k]|]; simpl;
        repeat constructor).
  unfold save_report. apply trace_try_except.
  - apply trace_bind; [exact O|intros _].
    apply trace_bind; [apply W|intros _].
    apply trace_for_each. intros [tool result].
    apply trace_bind; [apply W|intros _; apply W].
  - intros e k [= <-]. simpl. repeat constructor.
Qed.

Lemma save_report_is_contained_aux w path results :
  prints (snd (save_report w path results)) = [] /\
  spawns (snd (save_report w path results)) = [].
Proof.
  apply file_or_log_quiet, touches_only_file_or_log with (path := path).
  apply save_report_touches_only.
Qed.

(** X8.  Saving the report is contained: whatever the file system does,
    [save_report] returns normally, prints nothing, starts no process,
    and leaves every file other than the report file as it was. *)
Theorem save_report_is_contained (w : World) (path : string) (results : dict) :
  fst (save_report w path results) = Ok tt /\
  prints (snd (save_report w path results)) = [] /\
  spawns (snd (save_report w path results)) = [] /\
  (forall path' cur, path' <> path ->
     file_content path' (snd (save_report w path results)) cur = cur).
Proof.
  pose proof (save_report_touches_only w path results) as T.
  destruct (file_or_log_quiet _ (touches_only_file_or_log _ _ T)) as [P S].
  split; [apply save_report_returns|]. split; [exact P|]. split; [exact S|].
  intros path' cur Ne. now apply touches_only_other with (path := path).
Qed.

Lemma join_report_datas results : Str.join (report_datas results) = report_text results.
Proof.
  unfold report_datas, report_text. cbn [Str.join fold_right]. f_equal.
  induction results as [|[tool result] r IH]; [reflexivity|].
  cbn [flat_map map app Str.join fold_right]. fold (Str.join) in *.
  change (fold_right append "" ?l) with (Str.join l) in *.
  now rewrite IH, append_assoc.
Qed.

Lemma substring_prefix k : forall d, exists rest, d = substring 0 k d ++ rest.
Proof.
  induction k as [|k IH]; intros d.
  - exists d. now destruct d.
  - destruct d as [|c d]; [now exists ""|].
    destruct (IH d) as [rest E]. exists rest. cbn. now rewrite <- E.
Qed.

Lemma write_all_prefix w path datas :
  exists rest,
    Str.join datas = Str.join (fst (write_all w path datas)) ++ rest /\
    (snd (write_all w path datas) = None -> rest = "").
Proof.
  induction datas as [|d r (rest & E & N)]; cbn [write_all].
  - exists "". split; [reflexivity|auto].
  - destruct (fs_write w path d) as [[e k]|].
    + destruct (substring_prefix k d) as [rd Ed].
      exists (rd ++ Str.join r). split; [|discriminate].
      cbn [fst Str.join fold_right]. rewrite append_assoc. cbn [append].
      now rewrite <- append_assoc, <- Ed.
    + destruct (write_all w path r) as [ws o]. cbn [fst snd] in *.
      exists rest. split; [|exact N].
      cbn [Str.join fold_right]. fold (Str.join r). fold (Str.join ws).
      now rewrite E, append_assoc.
Qed.

(** The loop of [save_report] is [write_all] on the texts of the loop. *)
Lemma for_each_write_all w path results :
  for_each results (fun '(tool, result) =>
    f_write w path (String "010" "--- " ++ Str.upper tool ++ " ---" ++ String "010" "") ;;
    f_write w path result)
  = let (ws, o) := write_all w path
                     (flat_map (fun '(tool, result) => [header tool; result]) results) in
    (match o with None => Ok tt | Some e => Raise (OSError e) end,
     map (Write path) ws).
Proof.
  induction results as [|[tool result] r IH]; [reflexivity|].
  cbn [for_each flat_map]. rewrite IH.
  change ([header tool; result] ++ ?l)%list with (header tool :: result :: l).
  cbn [write_all]. unfold f_write. fold (header tool).
  destruct (fs_write w path (header tool)) as [[e k]|]; [reflexivity|].
  destruct (fs_write w path result) as [[e k]|]; [reflexivity|].
  destruct (write_all w path _) as [ws [e|]]; reflexivity.
Qed.

Lemma save_report_write_all w path results :
  fs_open w path = None ->
  save_report w path results
  = let (ws, o) := write_all w path (report_datas results) in
    (Ok tt,
     Open path :: map (Write path) ws ++
     match o with
     | None => []
     | Some e => [Log ERROR ("Failed to save report: " ++ os_error_str e)]
     end)%list.
Proof.
  intros O. unfold save_report. rewrite for_each_write_all.
  unfold report_datas, open_w. rewrite O. cbn [write_all]. unfold f_write.
  destruct (fs_write w path ("Analysis Report:" ++ String "010" "")) as [[e k]|];
    [reflexivity|].
  destruct (write_all w path _) as [ws [e|]]; cbn; now rewrite ?app_nil_r.
Qed.

Lemma file_content_writes path ws : forall c rest,
  file_content path (map (Write path) ws ++ rest) (Some c)
  = file_content path rest (Some (c ++ Str.join ws)).
Proof.
  induction ws as [|d ws IH]; intros c rest; cbn [map app file_content].
  - cbn. now rewrite append_nil_r.
  - rewrite String.eqb_refl, IH. cbn [Str.join fold_right].
    now rewrite append_assoc.
Qed.

Lemma logs_writes path ws : logs (map (Write path) ws) = [].
Proof. induction ws as [|x ws IH]; [reflexivity|exact IH]. Qed.

Lemma logs_result_prints results : logs (result_prints results) = [].
Proof. induction results as [|[tool result] r IH]; [reflexivity|exact IH]. Qed.

Lemma main_logs w args results t0 path :
  os_path_exists w (filepath args) = true ->
  supported (language args) = true ->
  dispatch w args = (Ok results, t0) ->
  truthy (report_file args) = Some path ->
  logs (snd (main w args)) = (logs t0 ++ logs (snd (save_report w path results)))%list.
Proof.
  intros Ex S D T. rewrite (main_trace w args results t0 Ex S D), T. cbn [snd].
  rewrite logs_app. f_equal.
  change (Print ?x :: ?l) with ([Print x] ++ l)%list.
  rewrite !logs_app, logs_result_prints. cbn. now rewrite app_nil_r.
Qed.

Lemma main_file_content w args results t0 path cur :
  os_path_exists w (filepath args) = true ->
  supported (language args) = true ->
  dispatch w args = (Ok results, t0) ->
  truthy (report_file args) = Some path ->
  file_content path (snd (main w args)) cur
  = file_content path (snd (save_report w path results)) cur.
Proof.
  intros Ex S D T. rewrite (main_trace w args results t0 Ex S D), T. cbn [snd].
  pose proof (dispatch_trace w args) as Q. rewrite D in Q. cbn [snd] in Q.
  rewrite file_content_app, (file_content_skip path t0 cur (log_or_spawn_not_file _ Q)).
  cbn [file_content]. rewrite file_content_app.
  rewrite (file_content_skip _ _ _ (result_prints_not_file results)).
  rewrite file_content_app. reflexivity.
Qed.

(** X9.  The report file after a run that reached the saving of the
    report.  When the file cannot be opened, it is left as it was and
    the failure is the one record the saving logs.  When it can be
    opened, its earlier content is gone and it holds a beginning of the
    report text: either the whole text, with nothing logged by the
    saving, or the saving logged one record [Failed to save report: ...]
    at level ERROR. *)
Theorem report_file_holds_a_beginning_of_the_report
    (w : World) (args : Args) (results : dict) (t0 : list event) (path : string)
    (cur : option string) :
  os_path_exists w (filepath args) = true ->
  supported (language args) = true ->
  dispatch w args = (Ok results, t0) ->
  truthy (report_file args) = Some path ->
  (forall e, fs_open w path = Some e ->
     file_content path (snd (main w args)) cur = cur /\
     logs (snd (main w args))
     = (logs t0 ++ [(ERROR, ("Failed to save report: " ++ os_error_str e)%string)])%list) /\
  (fs_open w path = None ->
   exists held rest,
     file_content path (snd (main w args)) cur = Some held /\
     report_text results = held ++ rest /\
     (rest = "" /\ logs (snd (main w args)) = logs t0 \/
      exists e,
        logs (snd (main w args))
        = (logs t0 ++ [(ERROR, ("Failed to save report: " ++ os_error_str e)%string)])%list)).
Proof.
  intros Ex S D T.
  rewrite (main_logs w args results t0 path Ex S D T).
  rewrite (main_file_content w args results t0 path cur Ex S D T).
  split.
  - intros e O. rewrite (save_report_open_fails _ _ _ _ O). now split.
  - intros O. rewrite (save_report_write_all _ _ _ O).
    destruct (write_all_prefix w path (report_datas results)) as (rest & E & N).
    rewrite join_report_datas in E.
    destruct (write_all w path (report_datas results)) as [ws o]. cbn [fst snd] in *.
    exists (Str.join ws), rest. split; [|split; [exact E|]].
    + cbn [file_content]. rewrite String.eqb_refl, file_content_writes.
      destruct o; reflexivity.
    + assert (L : forall tl, logs (Open path :: map (Write path) ws ++ tl) = logs tl).
      { intros tl. cbn [logs flat_map app]. fold (logs (map (Write path) ws ++ tl)).
        now rewrite logs_app, logs_writes. }
      rewrite L. destruct o as [e|].
      * right. now exists e.
      * left. split; [now apply N|now rewrite app_nil_r].
Qed.

Lemma report_file_holds_a_beginning_of_the_report_witness :
  exists held rest,
    file_content "out.txt"
      (snd (main world_disk_full
              (Demo.args_of "app.py" "python" (Some "out.txt") true false false false)))
      (Some "old report")
    = Some held /\
    report_text [("bandit", Demo.bandit_json)] = held ++ rest /\
    exists e,
      logs (snd (main world_disk_full
                   (Demo.args_of "app.py" "python" (Some "out.txt")
                      true false false false)))
      = [(INFO, "Running Bandit: bandit -r app.py -q -f json");
         (ERROR, "Failed to save report: " ++ os_error_str e)].
Proof.
  destruct (proj2 (report_file_holds_a_beginning_of_the_report world_disk_full
                     (Demo.args_of "app.py" "python" (Some "out.txt")
                        true false false false)
                     [("bandit", Demo.bandit_json)]
                     [Log INFO "Running Bandit: bandit -r app.py -q -f json";
                      Spawn ["bandit"; "-r"; "app.py"; "-q"; "-f"; "json"] None]
                     "out.txt" (Some "old report") eq_refl eq_refl eq_refl eq_refl)
                  eq_refl)
    as (held & rest & F & E & [[_ L]|[e L]]).
  - vm_compute in L. discriminate L.
  - exists held, rest. split; [exact F|]. split; [exact E|]. now exists e.
Defined.

Example disk_full_run :
  save_report world_disk_full "out.txt" [("bandit", Demo.bandit_json)]
  = (Ok tt,
     [Open "out.txt";
      Write "out.txt" ("Analysis Report:" ++ Demo.nl);
      Write "out.txt" (Demo.nl ++ "--- BANDIT ---" ++ Demo.nl);
      Write "out.txt" ("{" ++ String "034" "re");
      Log ERROR "Failed to save report: [Errno 28] No space left on device"]).
Proof. reflexivity. Qed.

Example undecodable_output_escapes :
  analyze_python world_undecodable "app.py" None true true true false
  = (Raise (UnicodeDecodeError
              "'utf-8' codec can't decode byte 0xff in position 0: invalid start byte"),
     [Log INFO "Running Bandit: bandit -r app.py -q -f json";
      Spawn ["bandit"; "-r"; "app.py"; "-q"; "-f"; "json"] None;
      Log INFO "Running Flake8: flake8 app.py";
      Spawn ["flake8"; "app.py"] None]).
Proof. reflexivity. Qed.

(** ** Beyond the claims: the console and the file system *)

Lemma observed_bind {A B} (m : M A) (k k' : A -> M B) :
  (forall a, observed (k a) = observed (k' a)) ->
  observed (x <- m ;; k x) = observed (x <- m ;; k' x).
Proof.
  intros H. destruct m as [[a|e] t]; [|reflexivity].
  specialize (H a). unfold observed in *. cbn [bind].
  destruct (k a) as [r1 t1], (k' a) as [r2 t2]. cbn [fst snd] in *.
  injection H as -> P S. now rewrite !prints_app, !spawns_app, P, S.
Qed.

Lemma main_output_observed w w' report_file results :
  observed (main_output w' report_file results)
  = observed (main_output w report_file results).
Proof.
  rewrite !main_output_trace. unfold observed. cbn [fst snd]. f_equal; [f_equal|].
  - change (Print ?x :: ?l) with ([Print x] ++ l)%list. rewrite !prints_app.
    do 2 f_equal. destruct (truthy report_file) as [path|]; [|reflexivity].
    rewrite !prints_app.
    destruct (save_report_is_contained_aux w path results) as (P & _).
    destruct (save_report_is_contained_aux w' path results) as (P' & _).
    now rewrite P, P'.
  - change (Print ?x :: ?l) with ([Print x] ++ l)%list. rewrite !spawns_app.
    do 2 f_equal. destruct (truthy report_file) as [path|]; [|reflexivity].
    rewrite !spawns_app.
    destruct (save_report_is_contained_aux w path results) as (_ & S).
    destruct (save_report_is_contained_aux w' path results) as (_ & S').
    now rewrite S, S'.
Qed.

Lemma main_with_files_of w w' args :
  observed (main w' args) = observed (main (with_files_of w w') args).
Proof.
  unfold main. cbn [with_files_of os_path_exists].
  change (analyze_python (with_files_of w w') ?a ?b ?c ?d ?e ?f)
    with (analyze_python w' a b c d e f).
  destruct (negb (os_path_exists w' (filepath args))); [reflexivity|].
  destruct (language args =? "python");
    [apply observed_bind; intros r; apply main_output_observed|].
  destruct (language args =? "javascript");
    [apply observed_bind; intros r; apply main_output_observed|].
  destruct (language args =? "php");
    [apply observed_bind; intros r; apply main_output_observed|reflexivity].
Qed.

(** X10.  What the file system does when the report is saved shows
    nowhere but in the file and the log: in two worlds that differ only
    there, [main] ends the same way, prints the same and starts the same
    processes. *)
Theorem console_does_not_depend_on_the_file_system (w w' : World) (args : Args) :
  same_but_files w w' ->
  observed (main w' args) = observed (main w args).
Proof.
  intros SF. rewrite (main_with_files_of w w' args). f_equal.
  apply main_blind. constructor; cbn [with_files_of os_path_exists os_spawn fs_open
                                        fs_write str_CalledProcessError];
    try reflexivity; try apply SF.
  intros a c. rewrite (sf_spawn _ _ SF).
  destruct (os_spawn w a c); simpl; auto.
Qed.

Lemma console_does_not_depend_on_the_file_system_witness :
  observed (main world_disk_full
              (Demo.args_of "app.py" "python" (Some "out.txt") true true false false))
  = observed (main Demo.world
                (Demo.args_of "app.py" "python" (Some "out.txt") true true false false)).
Proof.
  apply console_does_not_depend_on_the_file_system.
  constructor; reflexivity.
Defined.

(** ** Beyond the claims: quotes in the target path *)

Lemma in_single_quotes s : forall es q tok,
  Str.existsb is_single_quote s = false ->
  Shlex.read_token (Shlex.St_quote "'") es q tok s
  = Raise (ValueError "No closing quotation").
Proof.
  induction s as [|c r IH]; intros es q tok H; [reflexivity|].
  cbn [Str.existsb] in H. apply orb_false_iff in H as [Hc Hr].
  unfold is_single_quote in Hc. cbn [Shlex.read_token]. rewrite Hc.
  replace (Shlex.escapedquotes "'") with false by reflexivity.
  rewrite andb_false_r. now apply IH.
Qed.

Lemma opens_single_quote s1 : forall s2 st es q tok,
  Str.forallb plain s1 = true ->
  Str.existsb is_single_quote s2 = false ->
  st = Shlex.St_ws \/ st = Shlex.St_word ->
  Shlex.read_token st es q tok (s1 ++ String "'" s2)
  = Raise (ValueError "No closing quotation").
Proof.
  induction s1 as [|c r IH]; intros s2 st es q tok H1 H2 Hst.
  - destruct Hst as [-> | ->]; cbn; now apply in_single_quotes.
  - cbn [Str.forallb] in H1. apply andb_true_iff in H1 as [Hc Hr].
    unfold plain in Hc. apply andb_true_iff in Hc as [Hq He].
    apply negb_true_iff in Hq, He.
    destruct Hst as [-> | ->]; cbn [append Shlex.read_token]; rewrite ?Hq, ?He.
    + destruct (Shlex.whitespace c).
      * destruct (Shlex.emits tok q); [rewrite IH by auto; reflexivity|apply IH; auto].
      * apply IH; auto.
    + destruct (Shlex.whitespace c).
      * destruct (Shlex.emits tok q); [rewrite IH by auto; reflexivity|apply IH; auto].
      * apply IH; auto.
Qed.

(** X11.  A target path with one single quote in it (and no double
    quote or backslash) cannot be analysed by bandit, flake8 or pylint:
    splitting the command line raises [ValueError], so with any of the
    three enabled [analyze_python] raises it before any process is
    started. *)
Theorem unmatched_quote_stops_the_run
    (w : World) (report_file : option string) (b f l p : bool) (before after : string) :
  Str.forallb plain before = true ->
  Str.forallb plain after = true ->
  b || f || l = true ->
  let filepath := before ++ String "'" after in
  (forall t, t <> Pyre ->
     tool_args t filepath = Raise (ValueError "No closing quotation")) /\
  exists tr,
    analyze_python w filepath report_file b f l p
    = (Raise (ValueError "No closing quotation"), tr) /\
    spawns tr = [].
Proof.
  intros Hb Ha En filepath.
  assert (Q : forall s, Str.forallb plain s = true ->
                        Str.existsb is_single_quote s = false).
  { induction s as [|c s IH]; [reflexivity|]. cbn. intros H.
    apply andb_true_iff in H as [Hc Hs]. rewrite (IH Hs).
    unfold plain, Shlex.quotes in Hc. unfold is_single_quote.
    destruct (c =? "'")%char; [discriminate|reflexivity]. }
  assert (A : forall t, t <> Pyre ->
            tool_args t filepath = Raise (ValueError "No closing quotation")).
  { intros t Ht. unfold tool_args, tool_command, Shlex.split, filepath.
    destruct t; [| | |now contradiction Ht].
    - replace ("bandit -r " ++ (before ++ String "'" after) ++ " -q -f json")
        with (("bandit -r " ++ before) ++ String "'" (after ++ " -q -f json"))
        by (now rewrite !append_assoc).
      apply opens_single_quote;
        [now rewrite str_forallb_app, Hb
        |apply Q; now rewrite str_forallb_app, Ha
        |now left].
    - replace ("flake8 " ++ before ++ String "'" after)
        with (("flake8 " ++ before) ++ String "'" after)
        by (now rewrite !append_assoc).
      apply opens_single_quote;
        [now rewrite str_forallb_app, Hb|now apply Q|now left].
    - replace ("pylint " ++ (before ++ String "'" after) ++ " --output-format=json")
        with (("pylint " ++ before) ++ String "'" (after ++ " --output-format=json"))
        by (now rewrite !append_assoc).
      apply opens_single_quote;
        [now rewrite str_forallb_app, Hb
        |apply Q; now rewrite str_forallb_app, Ha
        |now left]. }
  split; [exact A|].
  assert (X : forall t, t <> Pyre ->
            tool_exn w filepath t = Some (ValueError "No closing quotation") /\
            tool_call filepath t = []).
  { intros t Ht. unfold tool_exn, tool_call. now rewrite (A t Ht). }
  assert (S : forall t, (t = Bandit \/ t = Flake8 \/ t = Pylint) ->
            enabled b f l p t = true ->
            (forall u, (tool_index u < tool_index t)%nat -> enabled b f l p u = false) ->
            exists tr,
              analyze_python w filepath report_file b f l p
              = (Raise (ValueError "No closing quotation"), tr) /\ spawns tr = []).
  { intros t Ht En' First.
    assert (Np : t <> Pyre) by (destruct Ht as [->|[->| ->]]; discriminate).
    destruct (first_failing_block_aux w filepath report_file b f l p t _
                En' (proj1 (X t Np))) as (tr & E & Sp).
    { intros u Hu Eu. rewrite (First u Hu) in Eu. discriminate. }
    exists tr. split; [exact E|]. rewrite Sp. unfold tools. cbn [flat_map].
    rewrite (proj2 (X Bandit ltac:(discriminate))),
            (proj2 (X Flake8 ltac:(discriminate))),
            (proj2 (X Pylint ltac:(discriminate))).
    destruct Ht as [->|[->| ->]]; cbn [tool_index Nat.leb];
      rewrite ?andb_false_r; repeat (match goal with |- context [if ?c then _ else _] =>
        destruct c end); reflexivity. }
  destruct b.
  - apply (S Bandit); auto. intros u Hu. cbn in Hu. lia.
  - destruct f.
    + apply (S Flake8); auto. intros [] Hu; cbn in Hu; try lia. reflexivity.
    + destruct l; [|discriminate En].
      apply (S Pylint); auto. intros [] Hu; cbn in Hu; try lia; reflexivity.
Qed.

Lemma unmatched_quote_stops_the_run_witness :
  tool_args Flake8 "it's.py" = Raise (ValueError "No closing quotation") /\
  exists tr,
    analyze_python Demo.world "it's.py" None false true false true
    = (Raise (ValueError "No closing quotation"), tr) /\
    spawns tr = [].
Proof.
  destruct (unmatched_quote_stops_the_run Demo.world None false true false true
              "it" "s.py" eq_refl eq_refl eq_refl) as (A & R).
  split; [apply A; discriminate|exact R].
Defined.

(** ** Beyond the claims: which processes [main] starts *)

(** X12.  [main] starts no process but the calls of enabled tools: a
    process it starts belongs to a run on an existing target with
    language [python] and is the call of a tool whose flag is set. *)
Theorem main_starts_enabled_tools_only
    (w : World) (args : Args) (a : list string) (c : option string) :
  In (a, c) (spawns (snd (main w args))) ->
  os_path_exists w (filepath args) = true /\
  language args = "python" /\
  exists t,
    enabled (use_bandit args) (use_flake8 args) (use_pylint args) (use_pyre args) t = true /\
    tool_call (filepath args) t = [(a, c)].
Proof.
  unfold main.
  destruct (os_path_exists w (filepath args)); cbn [negb]; [|intros []].
  destruct (String.eqb_spec (language args) "python") as [L|L].
  - intros H. split; [reflexivity|]. split; [exact L|].
    destruct (analyze_python_spawns_prefix w (filepath args) (report_file args)
                (use_bandit args) (use_flake8 args) (use_pylint args) (use_pyre args))
      as [rest P].
    assert (G : In (a, c) (planned_calls (filepath args) (use_bandit args)
                             (use_flake8 args) (use_pylint args) (use_pyre args))).
    { rewrite P. apply in_or_app. left.
      destruct (analyze_python w (filepath args) (report_file args) (use_bandit args)
                  (use_flake8 args) (use_pylint args) (use_pyre args))
        as [[res|e] tr]; [|exact H].
      cbn [bind] in H.
      pose proof (main_output_spawns w (report_file args) res) as S.
      destruct (main_output w (report_file args) res) as [r t]. cbn [snd] in *.
      rewrite spawns_app, S, app_nil_r in H. exact H. }
    unfold planned_calls in G. apply in_flat_map in G as (t & _ & G).
    exists t. destruct (enabled _ _ _ _ t); [|destruct G].
    split; [reflexivity|]. unfold tool_call in *.
    destruct (tool_args t (filepath args)); [|destruct G].
    destruct G as [[= <- <-]|[]]. reflexivity.
  - intros H. exfalso. revert H.
    destruct (language args =? "javascript").
    + cbn [analyze_javascript logging_warning emit bind ret].
      pose proof (main_output_spawns w (report_file args)
                    [("javascript_analysis", "Not implemented")]) as S.
      destruct (main_output w (report_file args) _) as [r t]. cbn in *.
      rewrite S. intros [].
    + destruct (language args =? "php"); [|intros []].
      cbn [analyze_php logging_warning emit bind ret].
      pose proof (main_output_spawns w (report_file args)
                    [("php_analysis", "Not implemented")]) as S.
      destruct (main_output w (report_file args) _) as [r t]. cbn in *.
      rewrite S. intros [].
Qed.

Lemma main_starts_enabled_tools_only_witness :
  exists t,
    enabled false true false false t = true /\
    tool_call "app.py" t = [(["flake8"; "app.py"], None)].
Proof.
  destruct (main_starts_enabled_tools_only Demo.world
              (Demo.args_of "app.py" "python" None false true false false)
              ["flake8"; "app.py"] None (or_introl eq_refl)) as (_ & _ & H).
  exact H.
Defined.

(** ** Beyond the claims: [dirname] and the directory pyre runs in *)

Lemma drop_while_all P l : forallb P l = true -> Path.drop_while P l = [].
Proof.
  induction l as [|x l IH]; [reflexivity|]. simpl.
  intros H. apply andb_true_iff in H as [-> H]. auto.
Qed.

Lemma forallb_list_ascii P s :
  Str.forallb P s = true -> forallb P (rev (list_ascii_of_string s)) = true.
Proof.
  intros H. rewrite forallb_forall. intros x Hx. apply in_rev in Hx.
  revert x Hx. rewrite <- forallb_forall.
  induction s as [|y s IH]; [reflexivity|]. simpl in *.
  apply andb_true_iff in H as [-> H]. auto.
Qed.

(** X13.  For a target given as a bare name (no separator in it)
    [dirname] is the empty string, so pyre is started with the empty
    string as its working directory; for a name directly under the root
    it is the root. *)
Theorem dirname_of_a_bare_name (name : string) :
  Str.forallb (fun x => negb (Path.is_sep x)) name = true ->
  Path.dirname name = "" /\
  tool_call name Pyre = [(["pyre"; "check"], Some "")] /\
  Path.dirname (String "/" name) = "/".
Proof.
  intros H. pose proof (forallb_list_ascii _ _ H) as H'.
  assert (D : Path.dirname name = "").
  { unfold Path.dirname, Path.head_of. now rewrite (drop_while_all _ _ H'). }
  split; [exact D|]. split.
  - unfold tool_call, tool_args, tool_cwd. cbn [tool_command]. now rewrite D.
  - unfold Path.dirname, Path.head_of. cbn [list_ascii_of_string rev].
    rewrite (drop_while_solid _ _ [] "/"%char H' eq_refl). reflexivity.
Qed.

Lemma dirname_of_a_bare_name_witness :
  Path.dirname "app.py" = "" /\
  tool_call "app.py" Pyre = [(["pyre"; "check"], Some "")] /\
  Path.dirname "/app.py" = "/".
Proof. exact (dirname_of_a_bare_name "app.py" eq_refl). Defined.

(** ** Beyond the claims: splitting what was joined *)

Lemma words_join_spaces ws :
  Forall (fun x => plain_word x = true) ws ->
  Str.forallb plain (join_spaces ws) = true /\ words (join_spaces ws) = ws.
Proof.
  induction 1 as [|x r Hx Hr [IH1 IH2]]; [now split|].
  pose proof (plain_word_spec _ Hx) as (Px & _ & _).
  destruct r as [|y r].
  - split; [exact Px|now apply words_plain_word].
  - change (join_spaces (x :: y :: r)) with (x ++ String " " (join_spaces (y :: r))).
    split.
    + rewrite str_forallb_app, Px. cbn [Str.forallb]. now rewrite IH1.
    + unfold words in *. rewrite (words_from_app_ws x "" " " _ eq_refl), IH2.
      pose proof (words_plain_word _ Hx) as W. unfold words in W. now rewrite W.
Qed.

(** X14.  Splitting undoes joining: for words that are not empty and
    have no white space, quote or backslash, [shlex.split] of the words
    joined by single spaces returns the words.  This is what makes the
    command lines of [analyze_python] come out as intended for a plain
    target path. *)
Theorem split_join_spaces (ws : list string) :
  Forall (fun x => plain_word x = true) ws ->
  Shlex.split (join_spaces ws) = Ok ws.
Proof.
  intros H. destruct (words_join_spaces ws H) as [P W].
  now rewrite (split_plain _ P), W.
Qed.

Lemma split_join_spaces_witness :
  Shlex.split (join_spaces ["bandit"; "-r"; "src/app.py"; "-q"; "-f"; "json"])
  = Ok ["bandit"; "-r"; "src/app.py"; "-q"; "-f"; "json"].
Proof.
  apply split_join_spaces. repeat constructor.
Defined.

(** ** Beyond the claims: the result dictionary *)

Lemma keys_dict_set d k v :
  keys (dict_set d k v)
  = if existsb (String.eqb k) (keys d) then keys d else (keys d ++ [k])%list.
Proof.
  induction d as [|[k' v'] d IH]; [reflexivity|]. cbn [dict_set keys map fst existsb].
  rewrite (String.eqb_sym k k'). destruct (k' =? k); [reflexivity|].
  cbn [map fst orb]. fold (keys (dict_set d k v)). fold (keys d). rewrite IH.
  now destruct (existsb (String.eqb k) (keys d)).
Qed.

(** X15.  Assignment to the result dictionary behaves as a Python
    [dict]: the key then holds the new text; every other key holds what
    it held; a key already present keeps its place and a new key goes
    last; and keys stay distinct. *)
Theorem dict_set_get (d : dict) (k v : string) :
  dict_get (dict_set d k v) k = Some v /\
  (forall k', k' <> k -> dict_get (dict_set d k v) k' = dict_get d k') /\
  keys (dict_set d k v)
  = (if existsb (String.eqb k) (keys d) then keys d else (keys d ++ [k])%list) /\
  (NoDup (keys d) -> NoDup (keys (dict_set d k v))).
Proof.
  split; [|split; [|split]].
  - induction d as [|[k' v'] d IH]; cbn [dict_set dict_get].
    + now rewrite String.eqb_refl.
    + destruct (k' =? k) eqn:E; cbn [dict_get]; now rewrite E.
  - intros k' Ne. induction d as [|[k0 v0] d IH]; cbn [dict_set dict_get].
    + apply String.eqb_neq in Ne. now rewrite String.eqb_sym, Ne.
    + destruct (String.eqb_spec k0 k) as [->|N0]; cbn [dict_get].
      * apply String.eqb_neq in Ne. now rewrite String.eqb_sym, Ne.
      * now rewrite IH.
  - apply keys_dict_set.
  - intros N. rewrite keys_dict_set.
    destruct (existsb (String.eqb k) (keys d)) eqn:E; [exact N|].
    apply NoDup_app; [exact N|repeat constructor; intros []|].
    intros a Ha [Ek|[]]. subst a.
    assert (X : existsb (String.eqb k) (keys d) = true)
      by (apply existsb_exists; exists k; split; [exact Ha|apply String.eqb_refl]).
    congruence.
Qed.

Lemma dict_set_get_witness :
  NoDup (keys (dict_set [("bandit", "{}"); ("flake8", "")] "bandit" "Error: x")) /\
  dict_set [("bandit", "{}"); ("flake8", "")] "bandit" "Error: x"
  = [("bandit", "Error: x"); ("flake8", "")].
Proof.
  split; [|reflexivity].
  apply (proj2 (proj2 (proj2 (dict_set_get [("bandit", "{}"); ("flake8", "")]
                                "bandit" "Error: x")))).
  repeat constructor; simpl; intuition discriminate.
Defined.

Lemma save_report_is_contained_witness :
  fst (save_report world_disk_full "out.txt" [("bandit", Demo.bandit_json)]) = Ok tt /\
  file_content "other.txt"
    (snd (save_report world_disk_full "out.txt" [("bandit", Demo.bandit_json)]))
    (Some "kept")
  = Some "kept".
Proof.
  destruct (save_report_is_contained world_disk_full "out.txt"
              [("bandit", Demo.bandit_json)]) as (R & _ & _ & O).
  split; [exact R|]. apply O. discriminate.
Defined.

(** ** Beyond the claims: a run without tool flags *)

(** X17.  With language [python] and none of the four flags set, which
    is what the defaults give, [main] on an existing target starts no
    process and the analysis logs nothing: [main] prints the title alone
    and, when a report path is given, saves a report of no entries and
    prints the closing message. *)
Theorem no_flags_no_analysis (w : World) (args : Args) :
  os_path_exists w (filepath args) = true ->
  language args = "python" ->
  use_bandit args || use_flake8 args || use_pylint args || use_pyre args = false ->
  main w args
  = (Ok tt,
     Print (String "010" "Analysis Results:") ::
     match truthy (report_file args) with
     | Some path => snd (save_report w path [])
                    ++ [Print (String "010" "Report saved to: " ++ path)]
     | None => []
     end)%list /\
  spawns (snd (main w args)) = [].
Proof.
  intros Ex L F.
  apply orb_false_iff in F as [F Fp]. apply orb_false_iff in F as [F Fl].
  apply orb_false_iff in F as [Fb Ff].
  assert (D : dispatch w args = (Ok [], [])).
  { unfold dispatch. rewrite L, Fb, Ff, Fl, Fp. reflexivity. }
  assert (S : supported (language args) = true) by (now rewrite L).
  pose proof (main_trace w args [] [] Ex S D) as E. cbn [app result_prints flat_map] in E.
  split; [exact E|].
  rewrite (main_dispatch w args Ex S), D. cbn [bind].
  pose proof (main_output_spawns w (report_file args) []) as Q.
  destruct (main_output w (report_file args) []) as [r t]. exact Q.
Qed.

Lemma no_flags_no_analysis_witness :
  main Demo.world (Demo.args_of "app.py" "python" (Some "out.txt") false false false false)
  = (Ok tt,
     [Print (String "010" "Analysis Results:");
      Open "out.txt";
      Write "out.txt" ("Analysis Report:" ++ String "010" "");
      Print (String "010" "Report saved to: out.txt")]).
Proof.
  exact (proj1 (no_flags_no_analysis Demo.world
                  (Demo.args_of "app.py" "python" (Some "out.txt")
                     false false false false)
                  eq_refl eq_refl eq_refl)).
Defined.

(** ** Beyond the claims: the directory pyre runs in *)

(** X16.  For a target written as a directory part that does not end in
    a separator, a separator, and a name without separators, pyre is
    started in the directory part.  The name may be empty: for a
    directory given with a trailing separator pyre is started in that
    directory itself, not in its parent. *)
Theorem pyre_runs_in_the_directory_part (d : string) (c : ascii) (name : string) :
  Path.is_sep c = false ->
  Str.forallb (fun x => negb (Path.is_sep x)) name = true ->
  tool_call (d ++ String c (String "/" name)) Pyre
  = [(["pyre"; "check"], Some (d ++ String c ""))].
Proof.
  intros Hc Hn. unfold tool_call, tool_args, tool_cwd. cbn [tool_command].
  now rewrite (dirname_parent d c name Hc Hn).
Qed.

Lemma pyre_runs_in_the_directory_part_witness :
  tool_call "src/pkg/app.py" Pyre = [(["pyre"; "check"], Some "src/pkg")] /\
  tool_call "src/pkg/" Pyre = [(["pyre"; "check"], Some "src/pkg")].
Proof.
  split.
  - exact (pyre_runs_in_the_directory_part "src/pk" "g" "app.py" eq_refl eq_refl).
  - exact (pyre_runs_in_the_directory_part "src/pk" "g" "" eq_refl eq_refl).
Defined.
